(** * AerialWareQGISIntegration: a shallow embedding of the plugin script

    The script [AerialWareQGISIntegration.py] is orchestration code: it reads
    the host project's layers, loads the external AerialWare module, asks the
    user for a raster layer, shows the external widget and, when the widget
    reports completion, turns its two paths into vector layers.

    The embedding keeps the script's control flow.  Everything the script
    talks to becomes an explicit component of a [state] record (module
    registry, file system, project, the widget it created, the user's
    pending dialog replies) or of an [environment] record (what the
    interpreter and the external tool answer).  Calls made on the host, the
    toolkit and the tool are logged in a chronological [trace], together with
    the answers the modal input dialogs return. *)

From Stdlib Require Import QArith.
From stdpp Require Import gmap strings list fin_maps.

Local Open Scope string_scope.
Local Open Scope Z_scope.
Local Open Scope list_scope.

(** ** Python values that cross the script *)

(** Exceptions the script can meet.  [BaseExit] stands for the exceptions
    that derive from [BaseException] but not from [Exception] ([SystemExit],
    [KeyboardInterrupt]); a bare [except:] catches them, [except Exception]
    does not. *)
Inductive exn : Type :=
| NameError (name : string)
| KeyError (key : string)
| IndexError
| AttributeError (attr : string)
| UnsupportedOperation (what : string)
| FileNotFoundError (file : string)
| ImportError
| ModuleException
| BaseExit.

Definition is_Exception (e : exn) : bool :=
  match e with
  | BaseExit => false
  | _ => true
  end.

(** Floating-point quantities are only carried from the tool to the host,
    never computed on; rationals stand for them. *)
Definition scalar : Type := Q.
Bind Scope Q_scope with scalar.

Record QPointF : Type := { qx : scalar; qy : scalar }.

Record QLineF : Type := { p1 : QPointF; p2 : QPointF }.

(** A [QgsPoint] built from a [QPointF] has no measure value until
    [addMValue] gives it one. *)
Record QgsPoint : Type := { px : scalar; py : scalar; pm : option scalar }.

Inductive variant_type : Type := QVariantDouble | QVariantInt.

Record QgsField : Type := { field_name : string; field_type : variant_type }.

Inductive QgsGeometry : Type :=
| Polyline (pts : list QgsPoint).

Record QgsFeature : Type := {
  f_geometry : option QgsGeometry;
  f_fields : list QgsField;
  f_attributes : list (string * scalar)
}.

Record QgsVectorLayer : Type := {
  v_uri : string;
  v_name : string;
  v_provider_key : string;
  v_editing : bool;
  v_provider_fields : list QgsField;
  v_fields : list QgsField;
  v_features : list QgsFeature;
  v_extent_fresh : bool
}.

Record QgsRasterLayer : Type := { r_name : string; r_width : Z; r_height : Z }.

Inductive QgsMapLayerType : Type :=
| VectorLayerT | RasterLayerT | PluginLayerT | MeshLayerT.

Inductive map_layer : Type :=
| Raster (r : QgsRasterLayer)
| Vector (v : QgsVectorLayer)
| Plugin (name : string)
| Mesh (name : string).

Definition layer_type (l : map_layer) : QgsMapLayerType :=
  match l with
  | Raster _ => RasterLayerT
  | Vector _ => VectorLayerT
  | Plugin _ => PluginLayerT
  | Mesh _ => MeshLayerT
  end.

Definition layer_name (l : map_layer) : string :=
  match l with
  | Raster r => r_name r
  | Vector v => v_name v
  | Plugin n => n
  | Mesh n => n
  end.

Definition is_raster (l : map_layer) : bool :=
  match layer_type l with
  | RasterLayerT => true
  | _ => false
  end.

Record QImage : Type := { img_source : QgsRasterLayer; img_width : Z; img_height : Z }.

(** The external tool's widget, as far as the script drives it. *)
Record AerialWareWidget : Type := {
  aw_standalone : bool;
  aw_image : option QImage;
  aw_shown : bool;
  aw_done_connected : bool;
  aw_closed : bool
}.

(** An entry of [sys.modules].  [FileModule origin finished] is a module
    object created from a file location; [finished] tells whether its code
    ran to the end. *)
Inductive module_obj : Type :=
| DefaultPackage
| FileModule (origin : string) (finished : bool).

Inductive file_mode : Type := ModeR | ModeW.

(** A text file object: writes are buffered until [close]. *)
Record file_obj : Type := { f_name : string; f_mode : file_mode; f_buffer : string }.

Inductive msg_icon : Type := Critical | Warning | Information.

(** ** Calls observed from outside *)

Inductive event : Type :=
| EMessageBox (icon : msg_icon) (title text : string)
| EGetItem (title label : string) (items : list string)
| EGetText (title label : string)
| EAnswer (text : string) (ok : bool)
| EImportDefault
| EExecModule (origin : string)
| EDeleteLater (who : string)
| EWidgetNew (standalone : bool)
| ELoadImage (img : QImage)
| EShow
| EConnectDone
| EClose
| ENewPoint (p : QPointF)
| EFromPolyline (pts : list QgsPoint)
| ESetGeometry (g : QgsGeometry)
| ESetFields (fs : list QgsField)
| ESetAttribute (name : string) (v : scalar)
| ENewVectorLayer (uri name provider : string)
| EStartEditing
| EAddAttributes (fs : list QgsField)
| EUpdateFields
| EAddFeatures (fs : list QgsFeature)
| ECommitChanges
| EUpdateExtents
| EAddMapLayer (l : QgsVectorLayer).

(** ** State, environment and the monad of the script *)

(** [sys_modules] is the interpreter's module registry and [files] the
    working directory.  [replies] are the answers the user will give to the
    modal input dialogs, in order.  [project] lists the project's map layers
    in the order [mapLayers()] enumerates them; the ids keying that dict only
    serve the enumeration. *)
Record state : Type := {
  sys_modules : gmap string module_obj;
  files : gmap string string;
  replies : list (string * bool);
  self_aw : option AerialWareWidget;
  project : list map_layer;
  trace : list event
}.

(** The tool's answers to the getters [onEnd] and [makeLayer] call. *)
Record tool_output : Type := {
  pathByMeridians : list QLineF;
  pathByHorizontals : list QLineF;
  flightHeight : scalar;
  maxArea_h : scalar;
  maxArea_w : scalar;
  cameraResolution_h : scalar;
  cameraResolution_w : scalar;
  cameraRatio : scalar;
  focalLength : scalar
}.

(** What running the module's code at a location does. *)
Inductive exec_result : Type :=
| ExecOk
| ExecRaises (e : exn).

Record environment : Type := {
  (** does [from AerialWare import AerialWare] succeed *)
  env_default_import : bool;
  (** [os.path.normpath] *)
  env_normpath : string -> string;
  (** [spec.loader.exec_module] at a location *)
  env_exec_module : string -> exec_result;
  (** does a registered module provide [AerialWareWidget] *)
  env_has_widget : module_obj -> bool;
  env_tool : tool_output
}.

(** A run returns, raises, or is left waiting at a modal dialog for a reply
    the user has not given. *)
Inductive outcome (A : Type) : Type :=
| Ret (a : A)
| Raise (e : exn)
| Blocked.
Arguments Ret {A} a.
Arguments Raise {A} e.
Arguments Blocked {A}.

Definition M (A : Type) : Type := state -> outcome A * state.

#[global] Instance M_ret : MRet M := fun A a s => (Ret a, s).

#[global] Instance M_bind : MBind M := fun A B f m s =>
  match m s with
  | (Ret a, s') => f a s'
  | (Raise e, s') => (Raise e, s')
  | (Blocked, s') => (Blocked, s')
  end.

Definition raise {A} (e : exn) : M A := fun s => (Raise e, s).

Definition blocked {A} : M A := fun s => (Blocked, s).

Definition get_state : M state := fun s => (Ret s, s).

(** [try: body / except <catches>: handler] *)
Definition try_except {A} (body : M A) (catches : exn -> bool)
    (handler : exn -> M A) : M A := fun s =>
  match body s with
  | (Raise e, s') => if catches e then handler e s' else (Raise e, s')
  | r => r
  end.

Definition set_sys_modules (f : gmap string module_obj -> gmap string module_obj)
    (s : state) : state :=
  {| sys_modules := f (sys_modules s); files := files s; replies := replies s;
     self_aw := self_aw s; project := project s; trace := trace s |}.

Definition set_files (f : gmap string string -> gmap string string)
    (s : state) : state :=
  {| sys_modules := sys_modules s; files := f (files s); replies := replies s;
     self_aw := self_aw s; project := project s; trace := trace s |}.

Definition set_replies (rs : list (string * bool)) (s : state) : state :=
  {| sys_modules := sys_modules s; files := files s; replies := rs;
     self_aw := self_aw s; project := project s; trace := trace s |}.

Definition set_self_aw (w : option AerialWareWidget) (s : state) : state :=
  {| sys_modules := sys_modules s; files := files s; replies := replies s;
     self_aw := w; project := project s; trace := trace s |}.

Definition set_project (f : list map_layer -> list map_layer) (s : state) : state :=
  {| sys_modules := sys_modules s; files := files s; replies := replies s;
     self_aw := self_aw s; project := f (project s); trace := trace s |}.

Definition log (e : event) (s : state) : state :=
  {| sys_modules := sys_modules s; files := files s; replies := replies s;
     self_aw := self_aw s; project := project s; trace := trace s ++ [e] |}.

Definition modify (f : state -> state) : M unit := fun s => (Ret tt, f s).

Definition emit (e : event) : M unit := modify (log e).

(** ** The module's global namespace *)

(** Names bound at the top level of the script: the three [from ... import]
    lines, [from os import path], [import importlib.util], [import sys] and
    the class statement. *)
Definition module_globals : list string :=
  [ "QApplication"; "QWidget"; "QInputDialog"; "QMessageBox";
    "QSize"; "QVariant";
    "QgsMapLayerType"; "QgsVectorLayer"; "QgsFeature"; "QgsGeometry";
    "QgsProject"; "QgsField";
    "path"; "importlib"; "sys"; "DummyWidget" ].

Definition name_bound (G : list string) (name : string) : bool :=
  existsb (String.eqb name) G.

(** Evaluating a global name. *)
Definition load_global (G : list string) (name : string) : M unit :=
  if name_bound G name then mret tt else raise (NameError name).

(** ** Text files *)

Fixpoint first_line (s : string) : string :=
  match s with
  | EmptyString => EmptyString
  | String c rest =>
      if Ascii.eqb c (Ascii.ascii_of_nat 10%nat) then String c EmptyString
      else String c (first_line rest)
  end.

(** [open(name, mode)]: mode ["w"] creates or truncates the file (the
    working directory is taken to be writable). *)
Definition open_ (name : string) (mode : file_mode) : M file_obj := fun s =>
  match mode with
  | ModeW =>
      (Ret {| f_name := name; f_mode := ModeW; f_buffer := "" |},
       set_files (insert name "") s)
  | ModeR =>
      match files s !! name with
      | Some _ => (Ret {| f_name := name; f_mode := ModeR; f_buffer := "" |}, s)
      | None => (Raise (FileNotFoundError name), s)
      end
  end.

(** [file.readline()]: a file opened for writing is not readable. *)
Definition readline (f : file_obj) : M string := fun s =>
  match f_mode f with
  | ModeW => (Raise (UnsupportedOperation "not readable"), s)
  | ModeR =>
      match files s !! f_name f with
      | Some content => (Ret (first_line content), s)
      | None => (Ret "", s)
      end
  end.

(** [file.write(text)] *)
Definition write (f : file_obj) (text : string) : M file_obj :=
  match f_mode f with
  | ModeR => raise (UnsupportedOperation "not writable")
  | ModeW =>
      mret {| f_name := f_name f; f_mode := f_mode f;
              f_buffer := f_buffer f +:+ text |}
  end.

(** [file.close()] flushes the buffer. *)
Definition close (f : file_obj) : M unit :=
  modify (set_files (fun fs =>
    match fs !! f_name f with
    | Some content => <[f_name f := content +:+ f_buffer f]> fs
    | None =>
        match f_mode f with
        | ModeW => <[f_name f := f_buffer f]> fs
        | ModeR => fs
        end
    end)).

(** ** Host objects: features and vector layers *)

Definition addMValue (p : QgsPoint) (m : scalar) : QgsPoint :=
  match pm p with
  | Some _ => p
  | None => {| px := px p; py := py p; pm := Some m |}
  end.

Definition point_of (q : QPointF) : QgsPoint :=
  {| px := qx q; py := qy q; pm := None |}.

Definition setGeometry (feature : QgsFeature) (g : QgsGeometry) : M QgsFeature :=
  emit (ESetGeometry g) ;;
  mret {| f_geometry := Some g; f_fields := f_fields feature;
          f_attributes := f_attributes feature |}.

Definition setFields (feature : QgsFeature) (fields : list QgsField)
    : M QgsFeature :=
  emit (ESetFields fields) ;;
  mret {| f_geometry := f_geometry feature; f_fields := fields;
          f_attributes := f_attributes feature |}.

Definition has_field (fs : list QgsField) (name : string) : bool :=
  existsb (fun f => String.eqb (field_name f) name) fs.

(** [feature.setAttribute(name, value)]: an unknown field name is a
    [KeyError]; [f_attributes] keeps the values handed over, in call order. *)
Definition setAttribute (feature : QgsFeature) (name : string) (v : scalar)
    : M QgsFeature :=
  if has_field (f_fields feature) name then
    emit (ESetAttribute name v) ;;
    mret {| f_geometry := f_geometry feature; f_fields := f_fields feature;
            f_attributes := (f_attributes feature ++ [(name, v)]) |}
  else raise (KeyError name).

Definition startEditing (l : QgsVectorLayer) : M QgsVectorLayer :=
  emit EStartEditing ;;
  mret {| v_uri := v_uri l; v_name := v_name l;
          v_provider_key := v_provider_key l; v_editing := true;
          v_provider_fields := v_provider_fields l; v_fields := v_fields l;
          v_features := v_features l; v_extent_fresh := v_extent_fresh l |}.

Definition addAttributes (l : QgsVectorLayer) (attrs : list QgsField)
    : M QgsVectorLayer :=
  emit (EAddAttributes attrs) ;;
  mret {| v_uri := v_uri l; v_name := v_name l;
          v_provider_key := v_provider_key l; v_editing := v_editing l;
          v_provider_fields := (v_provider_fields l ++ attrs);
          v_fields := v_fields l;
          v_features := v_features l; v_extent_fresh := v_extent_fresh l |}.

Definition updateFields (l : QgsVectorLayer) : M QgsVectorLayer :=
  emit EUpdateFields ;;
  mret {| v_uri := v_uri l; v_name := v_name l;
          v_provider_key := v_provider_key l; v_editing := v_editing l;
          v_provider_fields := v_provider_fields l;
          v_fields := v_provider_fields l;
          v_features := v_features l; v_extent_fresh := v_extent_fresh l |}.

Definition addFeatures (l : QgsVectorLayer) (fs : list QgsFeature)
    : M QgsVectorLayer :=
  emit (EAddFeatures fs) ;;
  mret {| v_uri := v_uri l; v_name := v_name l;
          v_provider_key := v_provider_key l; v_editing := v_editing l;
          v_provider_fields := v_provider_fields l; v_fields := v_fields l;
          v_features := (v_features l ++ fs);
          v_extent_fresh := false |}.

Definition commitChanges (l : QgsVectorLayer) : M QgsVectorLayer :=
  emit ECommitChanges ;;
  mret {| v_uri := v_uri l; v_name := v_name l;
          v_provider_key := v_provider_key l; v_editing := false;
          v_provider_fields := v_provider_fields l; v_fields := v_fields l;
          v_features := v_features l; v_extent_fresh := v_extent_fresh l |}.

Definition updateExtents (l : QgsVectorLayer) : M QgsVectorLayer :=
  emit EUpdateExtents ;;
  mret {| v_uri := v_uri l; v_name := v_name l;
          v_provider_key := v_provider_key l; v_editing := v_editing l;
          v_provider_fields := v_provider_fields l; v_fields := v_fields l;
          v_features := v_features l; v_extent_fresh := true |}.

(** [project.addMapLayer(layer)] *)
Definition addMapLayer (l : QgsVectorLayer) : M unit :=
  emit (EAddMapLayer l) ;;
  modify (set_project (fun layers => (layers ++ [Vector l]))).

Definition memory_file : string := "AerialWarePath.txt".

Section Script.

Variable G : list string.
Variable env : environment.

(** ** [importAerialWare] (lines 109-121) *)

Definition importAerialWare (pathToAerialWare : string) : M bool :=
  try_except
    (load_global G "importlib" ;;
     load_global G "path" ;;
     let origin := env_normpath env (pathToAerialWare +:+ "/AerialWare.py") in
     load_global G "importlib" ;;
     let awModule := FileModule origin false in
     load_global G "sys" ;;
     modify (set_sys_modules (insert "AerialWare" awModule)) ;;
     emit (EExecModule origin) ;;
     match env_exec_module env origin with
     | ExecOk =>
         modify (set_sys_modules (insert "AerialWare" (FileModule origin true))) ;;
         mret true
     | ExecRaises e => raise e
     end)
    is_Exception
    (fun _ => mret false).

(** ** [onStart] (lines 70-107) *)

Definition import_default : M unit :=
  emit EImportDefault ;;
  if env_default_import env then
    modify (set_sys_modules (fun reg =>
      match reg !! "AerialWare" with
      | Some _ => reg
      | None => <["AerialWare" := DefaultPackage]> reg
      end))
  else raise ImportError.

Definition getText (title label : string) (r : string * bool)
    (rest : list (string * bool)) : M (string * bool) :=
  load_global G "QInputDialog" ;;
  emit (EGetText title label) ;;
  modify (set_replies rest) ;;
  emit (EAnswer (fst r) (snd r)) ;;
  mret r.

(** The [while True] loop of lines 95-102 with the statements that follow
    its [break]; one iteration per reply of the user. *)
Fixpoint ask_path (file : file_obj) (rs : list (string * bool)) : M bool :=
  match rs with
  | [] =>
      load_global G "QInputDialog" ;;
      emit (EGetText "Path to AerialWare"
              "Please, write path to AerialWare folder:") ;;
      blocked
  | r :: rest =>
      pathToAerialWare ← getText "Path to AerialWare"
                           "Please, write path to AerialWare folder:" r rest ;
      if negb (snd pathToAerialWare) then
        close file ;; mret false
      else
        let path := fst pathToAerialWare in
        ok ← importAerialWare path ;
        if negb ok then ask_path file rest
        else
          file' ← write file path ;
          close file' ;;
          mret true
  end.

Definition onStart : M bool :=
  early ← try_except (import_default ;; mret true) (fun _ => true)
                     (fun _ => mret false) ;
  if early : bool then mret true
  else
    file ← open_ memory_file ModeW ;
    imported ← try_except
                 (line ← readline file ; importAerialWare line)
                 (fun _ => true)
                 (fun _ => mret false) ;
    if imported : bool then close file ;; mret true
    else
      s ← get_state ;
      ask_path file (replies s).

(** ** [DummyWidget.__init__] (lines 30-68) *)

Definition getItem (title label : string) (items : list string)
    : M (string * bool) :=
  load_global G "QInputDialog" ;;
  emit (EGetItem title label items) ;;
  s ← get_state ;
  match replies s with
  | [] => blocked
  | r :: rest =>
      modify (set_replies rest) ;;
      emit (EAnswer (fst r) (snd r)) ;;
      mret r
  end.

(** The loop of lines 45-50 over the layers of the project. *)
Fixpoint parse_layers (layers : list map_layer) (layersList : list string)
    (layersDict : gmap string map_layer)
    : M (list string * gmap string map_layer) :=
  match layers with
  | [] => mret (layersList, layersDict)
  | layer :: rest =>
      load_global G "QgsMapLayerType" ;;
      if negb (is_raster layer) then parse_layers rest layersList layersDict
      else
        let name := layer_name layer in
        parse_layers rest (layersList ++ [name]) (<[name := layer]> layersDict)
  end.

(** [layer.width()], [layer.height()]: raster layers only. *)
Definition as_raster (attr : string) (l : map_layer) : M QgsRasterLayer :=
  match l with
  | Raster r => mret r
  | _ => raise (AttributeError attr)
  end.

Definition no_raster_title : string := "No raster layer opened".

Definition no_raster_text : string :=
  "Sorry, but AerialWare works with raster layers only. Please, load at least one raster layer and try again.".

(** Lines 57-68: the selection dialog and the hand-over to the tool. *)
Definition launch (layersList : list string)
    (layersDict : gmap string map_layer) : M unit :=
  name ← getItem "Select layer" "Please, select a layer to work with:"
           layersList ;
  if negb (snd name) then mret tt
  else
    layer ← match layersDict !! fst name with
            | Some l => mret l
            | None => raise (KeyError (fst name))
            end ;
    load_global G "sys" ;;
    s1 ← get_state ;
    module ← match sys_modules s1 !! "AerialWare" with
             | Some m => mret m
             | None => raise (KeyError "AerialWare")
             end ;
    (if env_has_widget env module then mret tt
     else raise (AttributeError "AerialWareWidget")) ;;
    emit (EWidgetNew true) ;;
    modify (set_self_aw (Some
      {| aw_standalone := true; aw_image := None; aw_shown := false;
         aw_done_connected := false; aw_closed := false |})) ;;
    rp ← as_raster "previewAsImage" layer ;
    load_global G "QSize" ;;
    rw ← as_raster "width" layer ;
    rh ← as_raster "height" layer ;
    let img := {| img_source := rp; img_width := r_width rw;
                  img_height := r_height rh |} in
    emit (ELoadImage img) ;;
    emit EShow ;;
    emit EConnectDone ;;
    modify (set_self_aw (Some
      {| aw_standalone := true; aw_image := Some img; aw_shown := true;
         aw_done_connected := true; aw_closed := false |})).

Definition init : M unit :=
  s ← get_state ;
  let layers := project s in
  (* lines 36-42 *)
  if Nat.eqb (length layers) 0 then
    load_global G "QMessageBox" ;;
    load_global G "QMessageBox" ;;
    emit (EMessageBox Critical no_raster_title no_raster_text)
  else
    (* lines 45-50 *)
    parsed ← parse_layers layers [] ∅ ;
    let layersList := fst parsed in
    let layersDict := snd parsed in
    (* lines 53-55 *)
    started ← onStart ;
    if negb started then emit (EDeleteLater "self")
    else launch layersList layersDict.

(** ** [makeLayer] (lines 132-192) *)

(** [self.aw] *)
Definition getattr_aw : M AerialWareWidget :=
  s ← get_state ;
  match self_aw s with
  | Some w => mret w
  | None => raise (AttributeError "aw")
  end.

(** [QgsPoint(q)] *)
Definition new_point (q : QPointF) : M QgsPoint :=
  emit (ENewPoint q) ;;
  mret (point_of q).

(** The loop of lines 143-146. *)
Fixpoint second_points (height : scalar) (lines : list QLineF)
    (points : list QgsPoint) : M (list QgsPoint) :=
  match lines with
  | [] => mret points
  | line :: rest =>
      load_global G "QgsPoint" ;;
      p ← new_point (p2 line) ;
      let p := addMValue p height in
      second_points height rest (points ++ [p])
  end.

(** [QgsField(name, QVariant.X)] *)
Definition make_field (name : string) (ty : variant_type) : M QgsField :=
  load_global G "QgsField" ;;
  load_global G "QVariant" ;;
  mret {| field_name := name; field_type := ty |}.

Definition layer_uri : string := "LineString?crs=epsg:4326".

Definition makeLayer (lines : list QLineF) (name : string) : M unit :=
  _ ← getattr_aw ;
  let height := flightHeight (env_tool env) in
  (* lines 138-140 *)
  load_global G "QgsPoint" ;;
  line0 ← match lines with
          | [] => raise IndexError
          | l :: _ => mret l
          end ;
  p ← new_point (p1 line0) ;
  let p := addMValue p height in
  (* lines 143-146 *)
  points ← second_points height lines [p] ;
  (* lines 149-150 *)
  load_global G "QgsFeature" ;;
  let feature := {| f_geometry := None; f_fields := []; f_attributes := [] |} in
  load_global G "QgsGeometry" ;;
  emit (EFromPolyline points) ;;
  feature ← setGeometry feature (Polyline points) ;
  (* lines 153-160 *)
  a1 ← make_field "max_area_to_capture_height" QVariantDouble ;
  a2 ← make_field "max_area_to_capture_width" QVariantDouble ;
  a3 ← make_field "meters_in_pixel_ratio" QVariantDouble ;
  a4 ← make_field "resolution_height" QVariantInt ;
  a5 ← make_field "resolution_width" QVariantInt ;
  a6 ← make_field "camera_focal_length" QVariantDouble ;
  let attrs := [a1; a2; a3; a4; a5; a6] in
  (* lines 163-166 *)
  load_global G "QgsFields" ;;
  let fields := fold_left (fun fs field => (fs ++ [field])) attrs [] in
  feature ← setFields feature fields ;
  (* lines 169-176 *)
  _ ← getattr_aw ;
  _ ← getattr_aw ;
  let tool := env_tool env in
  feature ← setAttribute feature "max_area_to_capture_height" (maxArea_h tool) ;
  feature ← setAttribute feature "max_area_to_capture_width" (maxArea_w tool) ;
  _ ← getattr_aw ;
  feature ← setAttribute feature "meters_in_pixel_ratio" (cameraRatio tool) ;
  feature ← setAttribute feature "resolution_height" (cameraResolution_h tool) ;
  feature ← setAttribute feature "resolution_width" (cameraResolution_w tool) ;
  _ ← getattr_aw ;
  feature ← setAttribute feature "camera_focal_length" (focalLength tool) ;
  (* lines 179-181 *)
  load_global G "QgsVectorLayer" ;;
  emit (ENewVectorLayer layer_uri name "memory") ;;
  let layer :=
    {| v_uri := layer_uri; v_name := name; v_provider_key := "memory";
       v_editing := false; v_provider_fields := []; v_fields := [];
       v_features := []; v_extent_fresh := false |} in
  layer ← startEditing layer ;
  (* lines 183-184 *)
  layer ← addAttributes layer attrs ;
  layer ← updateFields layer ;
  (* line 186 *)
  layer ← addFeatures layer [feature] ;
  (* lines 188-189 *)
  layer ← commitChanges layer ;
  layer ← updateExtents layer ;
  (* line 192 *)
  addMapLayer layer.

(** ** [onEnd] (lines 123-130) *)

Definition onEnd : M unit :=
  _ ← getattr_aw ;
  makeLayer (pathByMeridians (env_tool env)) "Meridians" ;;
  _ ← getattr_aw ;
  makeLayer (pathByHorizontals (env_tool env)) "Horizontals" ;;
  aw ← getattr_aw ;
  emit EClose ;;
  modify (set_self_aw (Some
    {| aw_standalone := aw_standalone aw; aw_image := aw_image aw;
       aw_shown := false; aw_done_connected := aw_done_connected aw;
       aw_closed := true |})) ;;
  emit (EDeleteLater "aw") ;;
  emit (EDeleteLater "self").

End Script.

(** * Vocabulary of the statements *)

(** Unfolds the operations of the monad and computes. *)
Ltac run :=
  unfold mbind, mret, M_bind, M_ret, emit, modify, raise, blocked, get_state,
    try_except, load_global; cbn.

(** ** The loader's states *)

(** State in which the new module object is registered and its code is
    about to run. *)
Definition registered (origin : string) (s : state) : state :=
  log (EExecModule origin)
    (set_sys_modules (insert "AerialWare" (FileModule origin false)) s).

Definition origin_of (env : environment) (p : string) : string :=
  env_normpath env (p +:+ "/AerialWare.py").

(** The file object [onStart] works with, and the state right after the
    memory file was opened. *)
Definition opened_file : file_obj :=
  {| f_name := memory_file; f_mode := ModeW; f_buffer := "" |}.

Definition after_open (s : state) : state :=
  set_files (insert memory_file "") (log EImportDefault s).

Definition path_title : string := "Path to AerialWare".

Definition path_label : string := "Please, write path to AerialWare folder:".

Definition prompted (r : string * bool) (rest : list (string * bool))
    (s : state) : state :=
  log (EAnswer (fst r) (snd r))
    (set_replies rest (log (EGetText path_title path_label) s)).

(** The memory file is absent, or its first line is not a location the
    module loads from. *)
Definition memory_file_unusable (env : environment) (s : state) : Prop :=
  match files s !! memory_file with
  | None => True
  | Some content =>
      env_exec_module env (origin_of env (first_line content)) <> ExecOk
  end.

(** ** A sample installation *)

Definition sample_tool : tool_output :=
  {| pathByMeridians :=
       [ {| p1 := {| qx := 0; qy := 0 |}; p2 := {| qx := 0; qy := 5 |} |};
         {| p1 := {| qx := 0; qy := 5 |}; p2 := {| qx := 1; qy := 5 |} |} ];
     pathByHorizontals :=
       [ {| p1 := {| qx := 0; qy := 0 |}; p2 := {| qx := 7; qy := 0 |} |} ];
     flightHeight := 120;
     maxArea_h := 30; maxArea_w := 40;
     cameraResolution_h := 3000; cameraResolution_w := 4000;
     cameraRatio := 1 # 100; focalLength := 35 |}.

(** An installation where AerialWare lives in [/opt/aw] and nowhere else. *)
Definition sample_env : environment :=
  {| env_default_import := false;
     env_normpath := fun p => p;
     env_exec_module := fun origin =>
       if String.eqb origin "/opt/aw/AerialWare.py" then ExecOk
       else ExecRaises (FileNotFoundError origin);
     env_has_widget := fun m =>
       match m with
       | FileModule _ true => true
       | _ => false
       end;
     env_tool := sample_tool |}.

Definition sample_state (fs : gmap string string)
    (rs : list (string * bool)) (layers : list map_layer) : state :=
  {| sys_modules := ∅; files := fs; replies := rs; self_aw := None;
     project := layers; trace := [] |}.

Definition sample_raster : map_layer :=
  Raster {| r_name := "ortho"; r_width := 640; r_height := 480 |}.

Definition sample_roads : map_layer :=
  Vector {| v_uri := "roads.shp"; v_name := "roads"; v_provider_key := "ogr";
            v_editing := false; v_provider_fields := []; v_fields := [];
            v_features := []; v_extent_fresh := true |}.

(** The state in which the tool reports completion: the widget exists. *)
Definition sample_done_state : state :=
  {| sys_modules := {[ "AerialWare" := FileModule "/opt/aw/AerialWare.py" true ]};
     files := {[ memory_file := "/opt/aw" ]};
     replies := [];
     self_aw := Some {| aw_standalone := true; aw_image := None;
                        aw_shown := true; aw_done_connected := true;
                        aw_closed := false |};
     project := [sample_raster];
     trace := [] |}.

(** ** Traces *)

(** Events the loader produces. *)
Definition loader_event (e : event) : Prop :=
  match e with
  | EImportDefault | EGetText _ _ | EAnswer _ _ | EExecModule _ => True
  | _ => False
  end.

(** What a step leaves alone and what it adds to the trace. *)
Definition extends (s s' : state) (evs : list event) : Prop :=
  trace s' = trace s ++ evs /\
  project s' = project s /\
  self_aw s' = self_aw s.

(** ** Layers and the selection *)

(** The names [init] collects, in the order of the project's layers. *)
Definition raster_names (layers : list map_layer) : list string :=
  map layer_name (List.filter is_raster layers).

(** The dictionary built by lines 45-50: later layers overwrite earlier
    ones of the same name. *)
Definition parse_dict (layers : list map_layer) (D : gmap string map_layer)
    : gmap string map_layer :=
  fold_left (fun D l => if is_raster l then <[layer_name l := l]> D else D)
    layers D.

Definition select_title : string := "Select layer".

Definition select_label : string := "Please, select a layer to work with:".

Definition preview (r : QgsRasterLayer) : QImage :=
  {| img_source := r; img_width := r_width r; img_height := r_height r |}.

(** The events [init] adds once the loader is through. *)
Inductive init_tail (layers : list map_layer) : list event -> Prop :=
| tail_stopped : init_tail layers []
| tail_deleted : init_tail layers [EDeleteLater "self"]
| tail_waiting :
    init_tail layers [EGetItem select_title select_label (raster_names layers)]
| tail_answered (name : string) (ok : bool) :
    init_tail layers
      [EGetItem select_title select_label (raster_names layers);
       EAnswer name ok]
| tail_launched (name : string) (r : QgsRasterLayer) :
    In (Raster r) layers -> r_name r = name ->
    init_tail layers
      [EGetItem select_title select_label (raster_names layers);
       EAnswer name true; EWidgetNew true; ELoadImage (preview r);
       EShow; EConnectDone].

(** ** The converter's products *)

(** The namespace the script has once [QgsPoint] and [QgsFields] are
    imported as well. *)
Definition repaired_globals : list string :=
  "QgsPoint" :: "QgsFields" :: module_globals.

(** Several events logged at once. *)
Definition log_all (evs : list event) (s : state) : state :=
  {| sys_modules := sys_modules s; files := files s; replies := replies s;
     self_aw := self_aw s; project := project s; trace := trace s ++ evs |}.

Definition measured (height : scalar) (q : QPointF) : QgsPoint :=
  addMValue (point_of q) height.

Definition path_points (height : scalar) (line0 : QLineF)
    (lines : list QLineF) : list QgsPoint :=
  measured height (p1 line0) :: map (fun l => measured height (p2 l)) lines.

Definition layer_attrs : list QgsField :=
  [ {| field_name := "max_area_to_capture_height"; field_type := QVariantDouble |};
    {| field_name := "max_area_to_capture_width"; field_type := QVariantDouble |};
    {| field_name := "meters_in_pixel_ratio"; field_type := QVariantDouble |};
    {| field_name := "resolution_height"; field_type := QVariantInt |};
    {| field_name := "resolution_width"; field_type := QVariantInt |};
    {| field_name := "camera_focal_length"; field_type := QVariantDouble |} ].

Definition built_feature (tool : tool_output) (line0 : QLineF)
    (lines : list QLineF) : QgsFeature :=
  {| f_geometry := Some (Polyline (path_points (flightHeight tool) line0 lines));
     f_fields := layer_attrs;
     f_attributes :=
       [ ("max_area_to_capture_height", maxArea_h tool);
         ("max_area_to_capture_width", maxArea_w tool);
         ("meters_in_pixel_ratio", cameraRatio tool);
         ("resolution_height", cameraResolution_h tool);
         ("resolution_width", cameraResolution_w tool);
         ("camera_focal_length", focalLength tool) ] |}.

Definition built_layer (tool : tool_output) (line0 : QLineF)
    (lines : list QLineF) (name : string) : QgsVectorLayer :=
  {| v_uri := layer_uri; v_name := name; v_provider_key := "memory";
     v_editing := false; v_provider_fields := layer_attrs;
     v_fields := layer_attrs;
     v_features := [built_feature tool line0 lines];
     v_extent_fresh := true |}.

Definition host_calls (tool : tool_output) (line0 : QLineF)
    (lines : list QLineF) (name : string) : list event :=
  [ EFromPolyline (path_points (flightHeight tool) line0 lines);
    ESetGeometry (Polyline (path_points (flightHeight tool) line0 lines));
    ESetFields layer_attrs;
    ESetAttribute "max_area_to_capture_height" (maxArea_h tool);
    ESetAttribute "max_area_to_capture_width" (maxArea_w tool);
    ESetAttribute "meters_in_pixel_ratio" (cameraRatio tool);
    ESetAttribute "resolution_height" (cameraResolution_h tool);
    ESetAttribute "resolution_width" (cameraResolution_w tool);
    ESetAttribute "camera_focal_length" (focalLength tool);
    ENewVectorLayer layer_uri name "memory";
    EStartEditing;
    EAddAttributes layer_attrs;
    EUpdateFields;
    EAddFeatures [built_feature tool line0 lines];
    ECommitChanges;
    EUpdateExtents;
    EAddMapLayer (built_layer tool line0 lines name) ].

(** Computes through the straight-line part of [makeLayer]. *)
Ltac run_host :=
  cbv beta iota zeta delta
    [makeLayer getattr_aw new_point make_field setGeometry setFields
     setAttribute startEditing addAttributes updateFields addFeatures
     commitChanges updateExtents addMapLayer
     mbind M_bind mret M_ret emit modify raise get_state load_global
     name_bound existsb String.eqb Ascii.eqb Bool.eqb orb andb
     repaired_globals module_globals has_field fold_left
     addMValue point_of measured path_points
     log log_all set_project set_self_aw
     built_layer built_feature host_calls layer_attrs
     sys_modules files replies self_aw project trace
     field_name field_type f_geometry f_fields f_attributes
     v_uri v_name v_provider_key v_editing v_provider_fields v_fields
     v_features v_extent_fresh px py pm fst snd].

(** ** The prompt loop after failed attempts *)

(** A path the module does not load from: running its code raises an
    [Exception]. *)
Definition fails_to_load (env : environment) (q : string) : Prop :=
  exists e, env_exec_module env (origin_of env q) = ExecRaises e /\
            is_Exception e = true.

Definition accepted (q : string) : string * bool := (q, true).

(** The state after the user has entered the paths [bad], none of which
    loads, with [tail] the replies still to come. *)
Fixpoint tried (env : environment) (bad : list string)
    (tail : list (string * bool)) (s : state) : state :=
  match bad with
  | [] => s
  | q :: bad' =>
      tried env bad' tail
        (registered (origin_of env q)
           (prompted (q, true) (map accepted bad' ++ tail) s))
  end.

(** An installation where [from AerialWare import AerialWare] works. *)
Definition sample_env_default : environment :=
  {| env_default_import := true;
     env_normpath := env_normpath sample_env;
     env_exec_module := env_exec_module sample_env;
     env_has_widget := fun _ => true;
     env_tool := sample_tool |}.

(** ** The states of the selection *)

(** The state once the selection dialog has returned the reply
    [(name, ok)]. *)
Definition answered (items : list string) (name : string) (ok : bool)
    (rest : list (string * bool)) (s : state) : state :=
  log (EAnswer name ok)
    (set_replies rest (log (EGetItem select_title select_label items) s)).

Definition blank_widget : AerialWareWidget :=
  {| aw_standalone := true; aw_image := None; aw_shown := false;
     aw_done_connected := false; aw_closed := false |}.

Definition loaded_widget (r : QgsRasterLayer) : AerialWareWidget :=
  {| aw_standalone := true; aw_image := Some (preview r); aw_shown := true;
     aw_done_connected := true; aw_closed := false |}.

(** The state once the tool shows the preview of [r]. *)
Definition launched (r : QgsRasterLayer) (s : state) : state :=
  set_self_aw (Some (loaded_widget r))
    (log EConnectDone
       (log EShow
          (log (ELoadImage (preview r))
             (set_self_aw (Some blank_widget) (log (EWidgetNew true) s))))).

(** Two rasters of one name, told apart by their sizes. *)
Definition sample_raster_small : map_layer :=
  Raster {| r_name := "ortho"; r_width := 64; r_height := 48 |}.

(** ** Namespaces for the converter *)

(** The global names [makeLayer] evaluates. *)
Definition converter_names : list string :=
  [ "QgsPoint"; "QgsFeature"; "QgsGeometry"; "QgsField"; "QVariant";
    "QgsFields"; "QgsVectorLayer" ].

Definition binds_converter_names (G : list string) : Prop :=
  forallb (name_bound G) converter_names = true.

(** The widget after [close()]. *)
Definition closed_widget (w : AerialWareWidget) : AerialWareWidget :=
  {| aw_standalone := aw_standalone w; aw_image := aw_image w;
     aw_shown := false; aw_done_connected := aw_done_connected w;
     aw_closed := true |}.

(** A tool that found meridian lines but no horizontal ones. *)
Definition sample_env_no_horizontals : environment :=
  {| env_default_import := false;
     env_normpath := env_normpath sample_env;
     env_exec_module := env_exec_module sample_env;
     env_has_widget := env_has_widget sample_env;
     env_tool :=
       {| pathByMeridians := pathByMeridians sample_tool;
          pathByHorizontals := [];
          flightHeight := flightHeight sample_tool;
          maxArea_h := maxArea_h sample_tool;
          maxArea_w := maxArea_w sample_tool;
          cameraResolution_h := cameraResolution_h sample_tool;
          cameraResolution_w := cameraResolution_w sample_tool;
          cameraRatio := cameraRatio sample_tool;
          focalLength := focalLength sample_tool |} |}.

(** Computes through [makeLayer] in a namespace left symbolic. *)
Ltac run_conv :=
  cbv beta iota zeta delta
    [makeLayer getattr_aw new_point make_field setGeometry setFields
     setAttribute startEditing addAttributes updateFields addFeatures
     commitChanges updateExtents addMapLayer
     mbind M_bind mret M_ret emit modify raise get_state load_global
     existsb String.eqb Ascii.eqb Bool.eqb orb andb
     has_field fold_left
     addMValue point_of measured path_points
     log log_all set_project set_self_aw
     built_layer built_feature host_calls layer_attrs
     sys_modules files replies self_aw project trace
     field_name field_type f_geometry f_fields f_attributes
     v_uri v_name v_provider_key v_editing v_provider_fields v_fields
     v_features v_extent_fresh px py pm fst snd].

(** * Properties *)

(** ** Names the module does not bind *)

Lemma globals_lack_QgsPoint : name_bound module_globals "QgsPoint" = false.
Proof. reflexivity. Qed.

Lemma globals_lack_QgsFields : name_bound module_globals "QgsFields" = false.
Proof. reflexivity. Qed.

(** ** The loader *)

Lemma importAerialWare_eq (env : environment) (p : string) (s : state) :
  importAerialWare module_globals env p s =
    match env_exec_module env (origin_of env p) with
    | ExecOk =>
        (Ret true,
         set_sys_modules
           (insert "AerialWare" (FileModule (origin_of env p) true))
           (registered (origin_of env p) s))
    | ExecRaises e =>
        if is_Exception e then (Ret false, registered (origin_of env p) s)
        else (Raise e, registered (origin_of env p) s)
    end.
Proof.
  unfold importAerialWare, origin_of. run.
  destruct (env_exec_module env _) as [|e]; cbn; [reflexivity|].
  destruct (is_Exception e); reflexivity.
Qed.

(** With the default import failing, [onStart] opens the memory file for
    writing, cannot read it, and goes on to the prompt loop. *)
Lemma onStart_default_fails (env : environment) (s : state) :
  env_default_import env = false ->
  onStart module_globals env s =
    ask_path module_globals env opened_file (replies s) (after_open s).
Proof.
  intros Hdef. unfold onStart, import_default. run. rewrite Hdef. reflexivity.
Qed.

Lemma onStart_default_succeeds (env : environment) (s : state) :
  env_default_import env = true ->
  fst (onStart module_globals env s) = Ret true /\
  files (snd (onStart module_globals env s)) = files s.
Proof.
  intros Hdef. unfold onStart, import_default. run. rewrite Hdef.
  split; reflexivity.
Qed.

Lemma ask_path_cancel (env : environment) (file : file_obj) (text : string)
    (rest : list (string * bool)) (s : state) :
  ask_path module_globals env file ((text, false) :: rest) s =
    (Ret false, snd (close file (prompted (text, false) rest s))).
Proof. reflexivity. Qed.

Lemma ask_path_accept (env : environment) (file : file_obj) (text : string)
    (rest : list (string * bool)) (s : state) :
  env_exec_module env (origin_of env text) = ExecOk ->
  f_mode file = ModeW ->
  ask_path module_globals env file ((text, true) :: rest) s =
    (Ret true,
     snd (close {| f_name := f_name file; f_mode := f_mode file;
                   f_buffer := f_buffer file +:+ text |}
            (set_sys_modules
               (insert "AerialWare" (FileModule (origin_of env text) true))
               (registered (origin_of env text)
                  (prompted (text, true) rest s))))).
Proof.
  intros Hexec Hmode. cbn [ask_path]. unfold getText. run.
  change (log (EAnswer text true) _) with (prompted (text, true) rest s).
  rewrite importAerialWare_eq, Hexec. unfold write. rewrite Hmode.
  reflexivity.
Qed.

Lemma ask_path_retry (env : environment) (file : file_obj) (text : string)
    (rest : list (string * bool)) (s : state) (e : exn) :
  env_exec_module env (origin_of env text) = ExecRaises e ->
  is_Exception e = true ->
  ask_path module_globals env file ((text, true) :: rest) s =
    ask_path module_globals env file rest
      (registered (origin_of env text) (prompted (text, true) rest s)).
Proof.
  intros Hexec Hexc. cbn [ask_path]. unfold getText. run.
  change (log (EAnswer text true) _) with (prompted (text, true) rest s).
  rewrite importAerialWare_eq, Hexec, Hexc. reflexivity.
Qed.

Lemma onStart_accepts_first_reply (env : environment) (s : state)
    (p : string) (rest : list (string * bool)) :
  env_default_import env = false ->
  replies s = (p, true) :: rest ->
  env_exec_module env (origin_of env p) = ExecOk ->
  fst (onStart module_globals env s) = Ret true /\
  files (snd (onStart module_globals env s)) !! memory_file = Some p.
Proof.
  intros Hdef Hrep Hexec.
  rewrite (onStart_default_fails _ _ Hdef), Hrep.
  rewrite (ask_path_accept env opened_file p rest _ Hexec eq_refl).
  split; [reflexivity|].
  unfold close, modify. cbn [snd files set_files opened_file f_name f_buffer f_mode].
  unfold registered, prompted, after_open.
  cbn [files set_files set_sys_modules log set_replies].
  rewrite !lookup_insert_eq. reflexivity.
Qed.

(** ** Claims about the loader *)

(** C6. If the default-location import fails, the memory file is absent or
    invalid, and the first reply to the path prompt is a path the module
    loads from, then [onStart] returns [True] and the memory file afterwards
    holds exactly that path.  (The conclusion holds whatever the memory file
    held: see [onStart_accepts_first_reply].) *)
Theorem onStart_first_prompt_valid (env : environment) (s : state)
    (p : string) (rest : list (string * bool)) :
  env_default_import env = false ->
  memory_file_unusable env s ->
  replies s = (p, true) :: rest ->
  env_exec_module env (origin_of env p) = ExecOk ->
  fst (onStart module_globals env s) = Ret true /\
  files (snd (onStart module_globals env s)) !! memory_file = Some p.
Proof.
  intros Hdef _ Hrep Hexec. exact (onStart_accepts_first_reply _ _ _ _ Hdef Hrep Hexec).
Qed.

Lemma onStart_first_prompt_valid_witness :
  fst (onStart module_globals sample_env
         (sample_state ∅ [("/opt/aw", true)] [sample_raster])) = Ret true /\
  files (snd (onStart module_globals sample_env
                (sample_state ∅ [("/opt/aw", true)] [sample_raster])))
    !! memory_file = Some "/opt/aw".
Proof.
  apply (onStart_first_prompt_valid sample_env
           (sample_state ∅ [("/opt/aw", true)] [sample_raster]) "/opt/aw" []).
  - reflexivity.
  - unfold memory_file_unusable. vm_compute. exact I.
  - reflexivity.
  - reflexivity.
Defined.

(** C10. When [importAerialWare] returns [False], the registry entry
    [sys.modules["AerialWare"]] already holds the new module object, whose
    code did not run to the end: the failure came from executing the module,
    after the registration, and nothing was undone. *)
Theorem importAerialWare_failure_keeps_registration (env : environment)
    (p : string) (s s' : state) :
  importAerialWare module_globals env p s = (Ret false, s') ->
  sys_modules s' !! "AerialWare" = Some (FileModule (origin_of env p) false) /\
  (exists e, env_exec_module env (origin_of env p) = ExecRaises e /\
             is_Exception e = true) /\
  s' = registered (origin_of env p) s.
Proof.
  rewrite importAerialWare_eq.
  destruct (env_exec_module env (origin_of env p)) as [|e] eqn:Hexec.
  - intros H. inversion H.
  - destruct (is_Exception e) eqn:Hexc; intros H; inversion H; subst s'.
    split; [|split].
    + unfold registered. cbn [sys_modules log set_sys_modules].
      apply lookup_insert_eq.
    + exists e. split; [reflexivity | exact Hexc].
    + reflexivity.
Qed.

Lemma importAerialWare_failure_keeps_registration_witness :
  sys_modules sample_done_state !! "AerialWare"
    = Some (FileModule "/opt/aw/AerialWare.py" true) /\
  sys_modules (snd (importAerialWare module_globals sample_env "/nowhere"
                      sample_done_state)) !! "AerialWare"
    = Some (FileModule "/nowhere/AerialWare.py" false).
Proof.
  split; [reflexivity|].
  apply (importAerialWare_failure_keeps_registration sample_env "/nowhere"
           sample_done_state).
  reflexivity.
Defined.

Lemma extends_trans (s1 s2 s3 : state) (evs1 evs2 : list event) :
  extends s1 s2 evs1 -> extends s2 s3 evs2 ->
  extends s1 s3 (evs1 ++ evs2).
Proof.
  intros (Ht1 & Hp1 & Ha1) (Ht2 & Hp2 & Ha2). repeat split.
  - rewrite Ht2, Ht1, app_assoc. reflexivity.
  - congruence.
  - congruence.
Qed.

Lemma prompted_extends (r : string * bool) (rest : list (string * bool))
    (s : state) :
  extends s (prompted r rest s)
    [EGetText path_title path_label; EAnswer (fst r) (snd r)].
Proof.
  repeat split. unfold prompted. cbn [trace log set_replies].
  rewrite <- app_assoc. reflexivity.
Qed.

Lemma registered_extends (origin : string) (s : state) :
  extends s (registered origin s) [EExecModule origin].
Proof. repeat split. Qed.

Lemma ask_path_escape (env : environment) (file : file_obj) (text : string)
    (rest : list (string * bool)) (s : state) (e : exn) :
  env_exec_module env (origin_of env text) = ExecRaises e ->
  is_Exception e = false ->
  ask_path module_globals env file ((text, true) :: rest) s =
    (Raise e, registered (origin_of env text) (prompted (text, true) rest s)).
Proof.
  intros Hexec Hexc. cbn [ask_path]. unfold getText. run.
  change (log (EAnswer text true) _) with (prompted (text, true) rest s).
  rewrite importAerialWare_eq, Hexec, Hexc. reflexivity.
Qed.

(** The prompt loop only adds loader events, and every run of it starts
    with the path prompt. *)
Lemma ask_path_frame (env : environment) (file : file_obj)
    (rs : list (string * bool)) :
  f_mode file = ModeW ->
  forall s : state,
  exists evs,
    extends s (snd (ask_path module_globals env file rs s))
      (EGetText path_title path_label :: evs) /\
    Forall loader_event evs.
Proof.
  intros Hmode. induction rs as [|[text ok] rest IH]; intros s.
  - exists []. split; [|constructor]. repeat split.
  - destruct ok.
    + destruct (env_exec_module env (origin_of env text)) as [|e] eqn:Hexec.
      * rewrite (ask_path_accept _ _ _ _ _ Hexec Hmode).
        exists [EAnswer text true; EExecModule (origin_of env text)].
        split; [|repeat constructor]. repeat split.
        unfold close, modify, registered, prompted.
        cbn [snd trace log set_files set_sys_modules set_replies].
        rewrite <- !app_assoc. reflexivity.
      * destruct (is_Exception e) eqn:Hexc.
        -- rewrite (ask_path_retry _ _ _ _ _ _ Hexec Hexc).
           destruct (IH (registered (origin_of env text)
                           (prompted (text, true) rest s)))
             as (evs & Hext & Hall).
           exists ([EAnswer text true; EExecModule (origin_of env text)]
                     ++ EGetText path_title path_label :: evs).
           split.
           ++ pose proof (extends_trans _ _ _ _ _
                (extends_trans _ _ _ _ _
                   (prompted_extends (text, true) rest s)
                   (registered_extends (origin_of env text) _)) Hext) as H.
              exact H.
           ++ repeat constructor. exact Hall.
        -- rewrite (ask_path_escape _ _ _ _ _ _ Hexec Hexc).
           exists [EAnswer text true; EExecModule (origin_of env text)].
           split; [|repeat constructor].
           exact (extends_trans _ _ _ _ _
                    (prompted_extends (text, true) rest s)
                    (registered_extends (origin_of env text) _)).
    + rewrite ask_path_cancel. exists [EAnswer text false].
      split; [|repeat constructor].
      exact (prompted_extends (text, false) rest s).
Qed.

Lemma after_open_extends (s : state) : extends s (after_open s) [EImportDefault].
Proof. repeat split. Qed.

(** Whatever the memory file holds, a failed default import leads to the
    path prompt: the file's content is never handed to [importAerialWare]. *)
Lemma onStart_prompts_when_default_fails (env : environment) (s : state) :
  env_default_import env = false ->
  exists evs,
    extends s (snd (onStart module_globals env s))
      (EImportDefault :: EGetText path_title path_label :: evs) /\
    Forall loader_event evs.
Proof.
  intros Hdef. rewrite (onStart_default_fails _ _ Hdef).
  destruct (ask_path_frame env opened_file (replies s) eq_refl (after_open s))
    as (evs & Hext & Hall).
  exists evs. split; [|exact Hall].
  exact (extends_trans _ _ _ _ _ (after_open_extends s) Hext).
Qed.

Lemma onStart_frame (env : environment) (s : state) :
  exists evs,
    extends s (snd (onStart module_globals env s)) evs /\
    Forall loader_event evs.
Proof.
  destruct (env_default_import env) eqn:Hdef.
  - exists [EImportDefault]. split; [|repeat constructor].
    unfold onStart, import_default. run. rewrite Hdef. repeat split.
  - destruct (onStart_prompts_when_default_fails env s Hdef)
      as (evs & Hext & Hall).
    eexists. split; [exact Hext|]. repeat constructor. exact Hall.
Qed.

(** The memory file is truncated as soon as the default import has failed. *)
Lemma ask_path_cancel_files (env : environment) (text : string)
    (rest : list (string * bool)) (s : state) :
  files (snd (ask_path module_globals env opened_file
                ((text, false) :: rest) (after_open s)))
    !! memory_file = Some "".
Proof.
  rewrite ask_path_cancel.
  unfold close, modify, prompted, after_open.
  cbn [snd files set_files log set_replies opened_file f_name f_buffer f_mode].
  rewrite !lookup_insert_eq. reflexivity.
Qed.

(** C3, evaluated.  The default import fails, the memory file holds [/opt/aw],
    a path the module loads from, and the user answers the prompt by
    cancelling: [onStart] prompts all the same and returns [False]. *)
Theorem onStart_prompts_despite_memory_file :
  env_exec_module sample_env (origin_of sample_env "/opt/aw") = ExecOk /\
  fst (onStart module_globals sample_env
         (sample_state {[ memory_file := "/opt/aw" ]} [("", false)]
            [sample_raster])) = Ret false /\
  trace (snd (onStart module_globals sample_env
                (sample_state {[ memory_file := "/opt/aw" ]} [("", false)]
                   [sample_raster])))
    = [EImportDefault; EGetText path_title path_label; EAnswer "" false].
Proof. repeat split. Qed.

(** C4, evaluated.  Same installation; the user cancels the first prompt.
    The operation ends without a layer, no [write] was issued, yet the memory
    file that held [/opt/aw] is now empty. *)
Theorem init_cancel_truncates_memory_file :
  fst (init module_globals sample_env
         (sample_state {[ memory_file := "/opt/aw" ]} [("", false)]
            [sample_raster])) = Ret tt /\
  project (snd (init module_globals sample_env
                  (sample_state {[ memory_file := "/opt/aw" ]} [("", false)]
                     [sample_raster]))) = [sample_raster] /\
  files (sample_state {[ memory_file := "/opt/aw" ]} [("", false)]
           [sample_raster]) !! memory_file = Some "/opt/aw" /\
  files (snd (init module_globals sample_env
                (sample_state {[ memory_file := "/opt/aw" ]} [("", false)]
                   [sample_raster]))) !! memory_file = Some "".
Proof. repeat split. Qed.

(** ** The layer list and the selection *)

Lemma parse_layers_eq (layers : list map_layer) :
  forall (L : list string) (D : gmap string map_layer) (s : state),
  parse_layers module_globals layers L D s =
    (Ret (L ++ raster_names layers, parse_dict layers D), s).
Proof.
  induction layers as [|l rest IH]; intros L D s.
  - unfold raster_names. cbn. rewrite app_nil_r. reflexivity.
  - cbn [parse_layers]. run. unfold raster_names, parse_dict. cbn.
    destruct (is_raster l); cbn.
    + rewrite IH. unfold raster_names, parse_dict.
      rewrite <- app_assoc. reflexivity.
    + apply IH.
Qed.

Lemma parse_dict_lookup (layers : list map_layer) :
  forall (D : gmap string map_layer) (name : string) (l : map_layer),
  parse_dict layers D !! name = Some l ->
  (In l layers /\ is_raster l = true /\ layer_name l = name) \/
  D !! name = Some l.
Proof.
  induction layers as [|l0 rest IH]; intros D name l Hlook.
  - right. exact Hlook.
  - unfold parse_dict in Hlook. cbn [fold_left] in Hlook.
    destruct (IH _ _ _ Hlook) as [(Hin & Hr & Hn) | Hd].
    + left. split; [right; exact Hin | split; assumption].
    + destruct (is_raster l0) eqn:Hl0; [|right; exact Hd].
      destruct (decide (layer_name l0 = name)) as [Heq|Hne].
      * rewrite Heq, lookup_insert_eq in Hd. inversion Hd; subst l.
        left. split; [left; reflexivity | split; assumption].
      * rewrite lookup_insert_ne in Hd by exact Hne. right. exact Hd.
Qed.

Lemma raster_name_unique (layers : list map_layer) (a b : map_layer) :
  NoDup (raster_names layers) ->
  In a layers -> is_raster a = true ->
  In b layers -> is_raster b = true ->
  layer_name a = layer_name b -> a = b.
Proof.
  unfold raster_names. induction layers as [|l rest IH]; cbn [List.filter].
  - intros _ [].
  - intros Hnd Ha Hra Hb Hrb Hname.
    assert (Hmem : forall x, In x rest -> is_raster x = true ->
                     In (layer_name x) (map layer_name (List.filter is_raster rest))).
    { intros x Hx Hrx. apply in_map. apply filter_In. split; assumption. }
    destruct (is_raster l) eqn:Hl.
    + cbn [map] in Hnd. apply NoDup_cons in Hnd as [Hnotin Hnd].
      rewrite list_elem_of_In in Hnotin.
      destruct Ha as [Ha|Ha], Hb as [Hb|Hb].
      * congruence.
      * subst a. exfalso. apply Hnotin. rewrite Hname. apply Hmem; assumption.
      * subst b. exfalso. apply Hnotin. rewrite <- Hname. apply Hmem; assumption.
      * apply IH; assumption.
    + destruct Ha as [Ha|Ha]; [congruence|].
      destruct Hb as [Hb|Hb]; [congruence|].
      apply IH; assumption.
Qed.

Lemma launch_tail (env : environment) (layers : list map_layer) (s : state) :
  exists evs,
    trace (snd (launch module_globals env (raster_names layers)
                  (parse_dict layers ∅) s)) = trace s ++ evs /\
    init_tail layers evs.
Proof.
  unfold launch, getItem. run.
  destruct (replies s) as [|[name ok] rest]; cbn.
  - eexists. split; [reflexivity | apply tail_waiting].
  - destruct ok; cbn.
    2:{ eexists. split; [rewrite <- app_assoc; reflexivity|].
        apply tail_answered. }
    destruct (parse_dict layers ∅ !! name) as [layer|] eqn:Hlook; cbn.
    2:{ eexists. split; [rewrite <- app_assoc; reflexivity|].
        apply tail_answered. }
    destruct (sys_modules s !! "AerialWare") as [m|]; cbn.
    2:{ eexists. split; [rewrite <- app_assoc; reflexivity|].
        apply tail_answered. }
    destruct (env_has_widget env m); cbn.
    2:{ eexists. split; [rewrite <- app_assoc; reflexivity|].
        apply tail_answered. }
    destruct (parse_dict_lookup _ _ _ _ Hlook) as [(Hin & Hr & Hn) | Hempty].
    2:{ rewrite lookup_empty in Hempty. discriminate. }
    destruct layer as [r|v|n|n]; try discriminate Hr. cbn.
    eexists. split; [rewrite <- !app_assoc; reflexivity|].
    apply tail_launched; assumption.
Qed.

Lemma init_empty_project (env : environment) (s : state) :
  project s = [] ->
  init module_globals env s =
    (Ret tt, log (EMessageBox Critical no_raster_title no_raster_text) s).
Proof. intros Hp. unfold init. run. rewrite Hp. reflexivity. Qed.

(** With at least one layer of any kind in the project, [init] goes through
    the loader and, if it succeeds, on to the selection. *)
Lemma init_eq (env : environment) (s : state) :
  project s <> [] ->
  init module_globals env s =
    match onStart module_globals env s with
    | (Ret true, s1) =>
        launch module_globals env (raster_names (project s))
          (parse_dict (project s) ∅) s1
    | (Ret false, s1) => (Ret tt, log (EDeleteLater "self") s1)
    | (Raise e, s1) => (Raise e, s1)
    | (Blocked, s1) => (Blocked, s1)
    end.
Proof.
  intros Hp. unfold init.
  unfold mbind at 1. unfold M_bind at 1. unfold get_state at 1.
  destruct (project s) as [|l rest] eqn:Hproj; [congruence|].
  cbn [length Nat.eqb].
  unfold mbind at 1. unfold M_bind at 1.
  rewrite parse_layers_eq. cbn [fst snd app].
  unfold mbind at 1. unfold M_bind at 1.
  destruct (onStart module_globals env s) as [[[|]|e|] s1]; reflexivity.
Qed.

Lemma init_trace (env : environment) (s : state) :
  project s <> [] ->
  exists evs1 evs2,
    trace (snd (init module_globals env s)) = trace s ++ evs1 ++ evs2 /\
    Forall loader_event evs1 /\
    init_tail (project s) evs2.
Proof.
  intros Hp. rewrite (init_eq _ _ Hp).
  destruct (onStart_frame env s) as (evs1 & (Htr & _ & _) & Hall).
  destruct (onStart module_globals env s) as [[[|]|e|] s1]; cbn [snd] in Htr.
  - destruct (launch_tail env (project s) s1) as (evs2 & Htr2 & Htail).
    exists evs1, evs2. split; [|split; assumption].
    rewrite Htr2, Htr, app_assoc. reflexivity.
  - exists evs1, [EDeleteLater "self"]. split; [|split].
    + cbn [snd trace log]. rewrite Htr, app_assoc. reflexivity.
    + exact Hall.
    + apply tail_deleted.
  - exists evs1, []. split; [|split].
    + cbn [snd]. rewrite Htr, app_nil_r. reflexivity.
    + exact Hall.
    + apply tail_stopped.
  - exists evs1, []. split; [|split].
    + cbn [snd]. rewrite Htr, app_nil_r. reflexivity.
    + exact Hall.
    + apply tail_stopped.
Qed.

Lemma loader_event_not_dialog (evs : list event) (e : event) :
  Forall loader_event evs -> In e evs ->
  match e with
  | EGetItem _ _ _ | ELoadImage _ | EMessageBox _ _ _ => False
  | _ => True
  end.
Proof.
  intros Hall Hin. rewrite List.Forall_forall in Hall.
  specialize (Hall e Hin). destruct e; cbn in Hall; try exact I; exact Hall.
Qed.

(** In that run the dialog is shown and the preview of [ortho] is loaded. *)
Example init_sample_run :
  init module_globals sample_env
    (sample_state ∅ [("/opt/aw", true); ("ortho", true)]
       [sample_roads; sample_raster])
  = (Ret tt,
     {| sys_modules := {[ "AerialWare" := FileModule "/opt/aw/AerialWare.py" true ]};
        files := {[ memory_file := "/opt/aw" ]};
        replies := [];
        self_aw := Some {| aw_standalone := true;
                           aw_image := Some (preview {| r_name := "ortho";
                                                        r_width := 640;
                                                        r_height := 480 |});
                           aw_shown := true; aw_done_connected := true;
                           aw_closed := false |};
        project := [sample_roads; sample_raster];
        trace := [EImportDefault;
                  EGetText path_title path_label;
                  EAnswer "/opt/aw" true;
                  EExecModule "/opt/aw/AerialWare.py";
                  EGetItem select_title select_label ["ortho"];
                  EAnswer "ortho" true;
                  EWidgetNew true;
                  ELoadImage (preview {| r_name := "ortho"; r_width := 640;
                                         r_height := 480 |});
                  EShow; EConnectDone] |}).
Proof. vm_compute. reflexivity. Qed.

(** C5, evaluated.  A project whose only layer is a vector layer has no
    raster layer, yet no error dialog is shown: the loader runs and the
    selection dialog is presented with an empty list. *)
Theorem init_vector_only_project :
  List.filter is_raster [sample_roads] = [] /\
  fst (init module_globals sample_env
         (sample_state ∅ [("/opt/aw", true); ("", true)] [sample_roads]))
    = Raise (KeyError "") /\
  trace (snd (init module_globals sample_env
                (sample_state ∅ [("/opt/aw", true); ("", true)]
                   [sample_roads])))
    = [EImportDefault;
       EGetText path_title path_label;
       EAnswer "/opt/aw" true;
       EExecModule "/opt/aw/AerialWare.py";
       EGetItem select_title select_label [];
       EAnswer "" true].
Proof. repeat split. Qed.

(** ** The converter *)

Lemma converter_stops_at_QgsPoint (env : environment) (s : state)
    (w : AerialWareWidget) :
  self_aw s = Some w ->
  (forall lines name,
     makeLayer module_globals env lines name s
     = (Raise (NameError "QgsPoint"), s)) /\
  onEnd module_globals env s = (Raise (NameError "QgsPoint"), s).
Proof.
  intros Haw.
  assert (Hmk : forall ls n,
            makeLayer module_globals env ls n s = (Raise (NameError "QgsPoint"), s)).
  { intros ls n. unfold makeLayer, getattr_aw. run. rewrite Haw. reflexivity. }
  split; [exact Hmk|].
  unfold onEnd.
  unfold mbind at 1. unfold M_bind at 1. unfold getattr_aw at 1. run.
  rewrite Haw. rewrite Hmk. reflexivity.
Qed.

(** C1. The names [QgsPoint] and [QgsFields] are not bound in the module;
    every call of [makeLayer] made once the widget exists raises
    [NameError] for [QgsPoint] and leaves the state as it was: no point or
    geometry was built, no host call made.  [onEnd] therefore raises the
    same error and adds no layer to the project. *)
Theorem makeLayer_raises_NameError (env : environment) (lines : list QLineF)
    (name : string) (s : state) (w : AerialWareWidget) :
  self_aw s = Some w ->
  name_bound module_globals "QgsPoint" = false /\
  name_bound module_globals "QgsFields" = false /\
  makeLayer module_globals env lines name s = (Raise (NameError "QgsPoint"), s) /\
  onEnd module_globals env s = (Raise (NameError "QgsPoint"), s) /\
  project (snd (onEnd module_globals env s)) = project s.
Proof.
  intros Haw.
  destruct (converter_stops_at_QgsPoint env s w Haw) as [Hmk Hend].
  split; [reflexivity|]. split; [reflexivity|]. split; [apply Hmk|].
  split; [exact Hend|]. rewrite Hend. reflexivity.
Qed.

Lemma makeLayer_raises_NameError_witness :
  makeLayer module_globals sample_env (pathByMeridians sample_tool)
    "Meridians" sample_done_state
  = (Raise (NameError "QgsPoint"), sample_done_state).
Proof.
  apply (makeLayer_raises_NameError sample_env (pathByMeridians sample_tool)
           "Meridians" sample_done_state
           {| aw_standalone := true; aw_image := None; aw_shown := true;
              aw_done_connected := true; aw_closed := false |}).
  reflexivity.
Defined.

Lemma onEnd_adds_no_layer (env : environment) (s : state) :
  project (snd (onEnd module_globals env s)) = project s.
Proof.
  destruct (self_aw s) as [w|] eqn:Haw.
  - destruct (converter_stops_at_QgsPoint env s w Haw) as [_ Hend].
    rewrite Hend. reflexivity.
  - unfold onEnd, getattr_aw. run. rewrite Haw. reflexivity.
Qed.

(** ** The converter with the two missing names bound

    The rest of this section runs [makeLayer] in the namespace the script
    would have had with [QgsPoint] and [QgsFields] imported. *)

Lemma log_log_all (e : event) (evs : list event) (s : state) :
  log_all evs (log e s) = log_all (e :: evs) s.
Proof.
  unfold log_all, log. cbn. rewrite <- app_assoc. reflexivity.
Qed.

Lemma log_all_nil (s : state) : log_all [] s = s.
Proof.
  unfold log_all. rewrite app_nil_r. destruct s; reflexivity.
Qed.

Lemma second_points_eq (height : scalar) (lines : list QLineF) :
  forall (points : list QgsPoint) (s : state),
  second_points repaired_globals height lines points s =
    (Ret (points ++ map (fun l => measured height (p2 l)) lines),
     log_all (map (fun l => ENewPoint (p2 l)) lines) s).
Proof.
  induction lines as [|l rest IH]; intros points s.
  - cbn. rewrite app_nil_r, log_all_nil. reflexivity.
  - cbn [second_points]. unfold new_point. run. rewrite IH.
    rewrite log_log_all, <- app_assoc. reflexivity.
Qed.

Lemma makeLayer_repaired (env : environment) (line0 : QLineF)
    (rest : list QLineF) (name : string) (s : state) (w : AerialWareWidget) :
  self_aw s = Some w ->
  makeLayer repaired_globals env (line0 :: rest) name s =
    (Ret tt,
     set_project (fun layers =>
         layers ++ [Vector (built_layer (env_tool env) line0 (line0 :: rest) name)])
       (log_all
          (ENewPoint (p1 line0)
             :: map (fun l => ENewPoint (p2 l)) (line0 :: rest)
             ++ host_calls (env_tool env) line0 (line0 :: rest) name)
          s)).
Proof.
  intros Haw. destruct s as [mods fs rs aw proj tr]. cbn in Haw. subst aw.
  run_host.
  rewrite second_points_eq.
  run_host. cbn [app]. run_host.
  rewrite <- !app_assoc. cbn [app].
  reflexivity.
Qed.

Lemma bind_eq {A B : Type} (m : M A) (f : A -> M B) (s s' : state) (a : A) :
  m s = (Ret a, s') -> (m ≫= f) s = f a s'.
Proof. intros H. unfold mbind, M_bind. rewrite H. reflexivity. Qed.

Lemma getattr_aw_eq (s : state) (w : AerialWareWidget) :
  self_aw s = Some w -> getattr_aw s = (Ret w, s).
Proof.
  intros H. unfold getattr_aw, mbind, M_bind, get_state. rewrite H.
  reflexivity.
Qed.

Lemma path_points_length (height : scalar) (line0 : QLineF)
    (lines : list QLineF) :
  length (path_points height line0 lines) = S (length lines).
Proof. unfold path_points. cbn [length]. rewrite length_map. reflexivity. Qed.

Lemma path_points_measure (height : scalar) (line0 : QLineF)
    (lines : list QLineF) (p : QgsPoint) :
  In p (path_points height line0 lines) -> pm p = Some height.
Proof.
  unfold path_points. intros [<-|Hin]; [reflexivity|].
  apply in_map_iff in Hin as (l & <- & _). reflexivity.
Qed.

(** With both names bound, [onEnd] adds the two layers, in this order, each
    with its one feature. *)
Lemma onEnd_repaired (env : environment) (s : state) (w : AerialWareWidget)
    (m0 h0 : QLineF) (ms hs : list QLineF) :
  self_aw s = Some w ->
  pathByMeridians (env_tool env) = m0 :: ms ->
  pathByHorizontals (env_tool env) = h0 :: hs ->
  fst (onEnd repaired_globals env s) = Ret tt /\
  project (snd (onEnd repaired_globals env s)) =
    project s ++
      [Vector (built_layer (env_tool env) m0 (m0 :: ms) "Meridians");
       Vector (built_layer (env_tool env) h0 (h0 :: hs) "Horizontals")].
Proof.
  intros Haw Hm Hh. unfold onEnd. rewrite Hm, Hh.
  erewrite bind_eq by (apply getattr_aw_eq; exact Haw).
  erewrite bind_eq by (eapply makeLayer_repaired; exact Haw).
  set (s1 := set_project _ _).
  assert (Haw1 : self_aw s1 = Some w) by exact Haw.
  erewrite bind_eq by (apply getattr_aw_eq; exact Haw1).
  erewrite bind_eq by (eapply makeLayer_repaired; exact Haw1).
  set (s2 := set_project _ _).
  assert (Haw2 : self_aw s2 = Some w) by exact Haw.
  erewrite bind_eq by (apply getattr_aw_eq; exact Haw2).
  split; [reflexivity|].
  cbv beta iota zeta delta [mbind M_bind emit modify log set_self_aw snd].
  subst s2 s1. cbn [project set_project log_all]. rewrite <- app_assoc.
  reflexivity.
Qed.

(** ** The converter as the script has it, on the sample run *)

(** C2, evaluated.  The tool hands over a path of two segments; [makeLayer]
    raises before the first point is built, so no geometry (of three points
    or otherwise) is produced. *)
Theorem makeLayer_sample_no_geometry :
  length (pathByMeridians sample_tool) = 2%nat /\
  fst (makeLayer module_globals sample_env (pathByMeridians sample_tool)
         "Meridians" sample_done_state) = Raise (NameError "QgsPoint") /\
  trace (snd (makeLayer module_globals sample_env
                (pathByMeridians sample_tool) "Meridians"
                sample_done_state)) = [].
Proof. repeat split. Qed.

(** C8, evaluated.  [onEnd] stops at the first [makeLayer]: the project
    holds the same single raster layer afterwards, neither [Meridians] nor
    [Horizontals] was added, and the widget was not closed. *)
Theorem onEnd_sample_no_layers :
  fst (onEnd module_globals sample_env sample_done_state)
    = Raise (NameError "QgsPoint") /\
  project (snd (onEnd module_globals sample_env sample_done_state))
    = [sample_raster] /\
  trace (snd (onEnd module_globals sample_env sample_done_state)) = [].
Proof. repeat split. Qed.

(** C9, evaluated.  On the [Horizontals] path none of the host calls is
    made: the run ends with the trace as empty as it started, where the
    repaired namespace yields the calls of [host_calls] in their order. *)
Theorem makeLayer_sample_no_host_calls :
  trace (snd (makeLayer module_globals sample_env
                (pathByHorizontals sample_tool) "Horizontals"
                sample_done_state)) = [] /\
  exists line0,
    pathByHorizontals sample_tool = [line0] /\
    trace (snd (makeLayer repaired_globals sample_env
                  (pathByHorizontals sample_tool) "Horizontals"
                  sample_done_state))
      = ENewPoint (p1 line0) :: ENewPoint (p2 line0)
          :: host_calls sample_tool line0 [line0] "Horizontals".
Proof.
  split; [reflexivity|].
  eexists. split; [reflexivity|].
  change (pathByHorizontals sample_tool)
    with [ {| p1 := {| qx := 0; qy := 0 |}; p2 := {| qx := 7; qy := 0 |} |} ].
  erewrite makeLayer_repaired by reflexivity. reflexivity.
Qed.

(** The sample run in the repaired namespace: three measured points for
    the two segments, and the two layers with one feature each. *)
Example makeLayer_repaired_sample_points :
  exists line0 rest,
    pathByMeridians sample_tool = line0 :: rest /\
    length (path_points (flightHeight sample_tool) line0 (line0 :: rest))
      = 3%nat /\
    forall p, In p (path_points (flightHeight sample_tool) line0 (line0 :: rest)) ->
      pm p = Some (flightHeight sample_tool).
Proof.
  do 2 eexists. split; [reflexivity|]. split; [reflexivity|].
  apply path_points_measure.
Qed.

Example onEnd_repaired_sample :
  fst (onEnd repaired_globals sample_env sample_done_state) = Ret tt /\
  map layer_name
    (project (snd (onEnd repaired_globals sample_env sample_done_state)))
    = ["ortho"; "Meridians"; "Horizontals"].
Proof.
  destruct (onEnd_repaired sample_env sample_done_state _ _ _ _ _
              eq_refl eq_refl eq_refl) as [Hret Hproj].
  split; [exact Hret|]. rewrite Hproj. reflexivity.
Qed.

(** * Further properties of the script *)

(** ** [importAerialWare] *)

(** X1. [importAerialWare] returns [True] exactly when the module's code
    runs to the end, [False] exactly when it raises an [Exception], and lets
    through what is raised outside [Exception]; it never waits for the
    user. *)
Theorem importAerialWare_outcome (env : environment) (p : string) (s : state) :
  (fst (importAerialWare module_globals env p s) = Ret true <->
   env_exec_module env (origin_of env p) = ExecOk) /\
  (fst (importAerialWare module_globals env p s) = Ret false <->
   fails_to_load env p) /\
  (forall e, fst (importAerialWare module_globals env p s) = Raise e <->
     env_exec_module env (origin_of env p) = ExecRaises e /\
     is_Exception e = false) /\
  fst (importAerialWare module_globals env p s) <> Blocked.
Proof.
  rewrite importAerialWare_eq. unfold fails_to_load.
  destruct (env_exec_module env (origin_of env p)) as [|e] eqn:Hexec.
  - cbn [fst]. repeat split; try congruence.
    + intros (e & He & _). discriminate He.
    + intros [He _]. discriminate He.
  - destruct (is_Exception e) eqn:Hexc; cbn [fst].
    + repeat split; try congruence.
      * intros _. exists e. split; [reflexivity | exact Hexc].
      * intros [He Hf]. congruence.
    + repeat split; try congruence.
      * intros (e' & He & Hf). congruence.
      * intros [He _]. congruence.
Qed.

(** X2. Whatever its result and whatever the registry held before,
    [importAerialWare] leaves under [AerialWare] a module object made from
    the file [AerialWare.py] of the given folder, finished exactly when the
    result is [True]. *)
Theorem importAerialWare_registers_module (env : environment) (p : string)
    (s : state) :
  sys_modules (snd (importAerialWare module_globals env p s)) !! "AerialWare"
    = Some (FileModule (env_normpath env (p +:+ "/AerialWare.py"))
              (match fst (importAerialWare module_globals env p s) with
               | Ret true => true
               | _ => false
               end)).
Proof.
  rewrite importAerialWare_eq. fold (origin_of env p).
  destruct (env_exec_module env (origin_of env p)) as [|e];
    [|destruct (is_Exception e)];
    unfold registered; cbn [fst snd sys_modules set_sys_modules log];
    apply lookup_insert_eq.
Qed.

Lemma onStart_default_import_short_circuit_aux (env : environment)
    (s : state) :
  env_default_import env = true ->
  is_Some (sys_modules (snd (onStart module_globals env s)) !! "AerialWare").
Proof.
  intros Hdef. unfold onStart, import_default. run. rewrite Hdef. cbn.
  destruct (sys_modules s !! "AerialWare") as [m|] eqn:Hreg.
  - rewrite Hreg. eauto.
  - rewrite lookup_insert_eq. eauto.
Qed.

(** X3. When the default import works, [onStart] returns [True] at once:
    the memory file is neither created nor truncated, no reply of the user
    is consumed, and the import attempt is all that is observed. *)
Theorem onStart_default_import_short_circuit (env : environment) (s : state) :
  env_default_import env = true ->
  fst (onStart module_globals env s) = Ret true /\
  files (snd (onStart module_globals env s)) = files s /\
  replies (snd (onStart module_globals env s)) = replies s /\
  trace (snd (onStart module_globals env s)) = trace s ++ [EImportDefault] /\
  is_Some (sys_modules (snd (onStart module_globals env s)) !! "AerialWare").
Proof.
  intros Hdef. unfold onStart, import_default. run. rewrite Hdef. cbn.
  repeat split.
  destruct (sys_modules s !! "AerialWare") as [m|] eqn:Hreg.
  - rewrite Hreg. eauto.
  - rewrite lookup_insert_eq. eauto.
Qed.

Lemma onStart_default_import_short_circuit_witness :
  fst (onStart module_globals sample_env_default
         (sample_state {[ memory_file := "/old" ]} [("x", true)] [])) = Ret true /\
  files (snd (onStart module_globals sample_env_default
                (sample_state {[ memory_file := "/old" ]} [("x", true)] [])))
    = {[ memory_file := "/old" ]}.
Proof.
  destruct (onStart_default_import_short_circuit sample_env_default
              (sample_state {[ memory_file := "/old" ]} [("x", true)] [])
              eq_refl) as (Hret & Hfiles & _).
  split; [exact Hret | exact Hfiles].
Defined.

Lemma close_files (f : file_obj) (s : state) (content : string) :
  files s !! f_name f = Some content ->
  files (snd (close f s)) = <[f_name f := content +:+ f_buffer f]> (files s).
Proof.
  intros Hlook. unfold close, modify. cbn [snd files set_files].
  rewrite Hlook. reflexivity.
Qed.

Lemma ask_path_skips_bad (env : environment) (file : file_obj)
    (bad : list string) (tail : list (string * bool)) :
  Forall (fails_to_load env) bad ->
  forall s : state,
  ask_path module_globals env file (map accepted bad ++ tail) s =
    ask_path module_globals env file tail (tried env bad tail s).
Proof.
  induction 1 as [|q bad (e & Hexec & Hexc) _ IH]; intros s.
  - reflexivity.
  - cbn [map app tried]. unfold accepted at 1.
    rewrite (ask_path_retry _ _ _ _ _ _ Hexec Hexc). apply IH.
Qed.

Lemma tried_frame (env : environment) (bad : list string)
    (tail : list (string * bool)) :
  forall s : state,
  files (tried env bad tail s) = files s /\
  project (tried env bad tail s) = project s /\
  self_aw (tried env bad tail s) = self_aw s /\
  sys_modules (tried env bad tail s) !! "AerialWare" =
    match last bad with
    | Some q => Some (FileModule (origin_of env q) false)
    | None => sys_modules s !! "AerialWare"
    end.
Proof.
  induction bad as [|q bad IH]; intros s.
  - repeat split.
  - cbn [tried].
    destruct (IH (registered (origin_of env q)
                    (prompted (q, true) (map accepted bad ++ tail) s)))
      as (Hf & Hp & Ha & Hreg).
    split; [exact Hf|]. split; [exact Hp|]. split; [exact Ha|].
    rewrite Hreg. destruct bad as [|q' bad'].
    + cbn. unfold registered. cbn [sys_modules log set_sys_modules].
      apply lookup_insert_eq.
    + change (last (q :: q' :: bad')) with (last (q' :: bad')).
      destruct (last (q' :: bad')) eqn:Hlast; [reflexivity|].
      apply last_None in Hlast. discriminate Hlast.
Qed.

(** X4. The prompt is repeated for as long as the entered folders fail to
    load: once the user enters a folder that loads, [onStart] returns
    [True], the memory file holds that folder, the registry holds its
    finished module and the replies after it are left for later dialogs. *)
Theorem onStart_retries_until_valid (env : environment) (s : state)
    (bad : list string) (p : string) (rest : list (string * bool)) :
  env_default_import env = false ->
  Forall (fails_to_load env) bad ->
  env_exec_module env (origin_of env p) = ExecOk ->
  replies s = map accepted bad ++ (p, true) :: rest ->
  fst (onStart module_globals env s) = Ret true /\
  files (snd (onStart module_globals env s)) !! memory_file = Some p /\
  sys_modules (snd (onStart module_globals env s)) !! "AerialWare"
    = Some (FileModule (origin_of env p) true) /\
  replies (snd (onStart module_globals env s)) = rest.
Proof.
  intros Hdef Hbad Hexec Hrep.
  rewrite (onStart_default_fails _ _ Hdef), Hrep.
  rewrite (ask_path_skips_bad _ _ _ _ Hbad).
  rewrite (ask_path_accept env opened_file p rest _ Hexec eq_refl).
  destruct (tried_frame env bad ((p, true) :: rest) (after_open s))
    as (Hf & _ & _ & _).
  split; [reflexivity|]. split; [|split].
  - cbn [snd]. rewrite (close_files _ _ "").
    + cbn [f_name]. rewrite lookup_insert_eq. reflexivity.
    + unfold registered, prompted.
      cbn [files set_sys_modules log set_replies f_name].
      rewrite Hf. unfold after_open. cbn [files set_files].
      apply lookup_insert_eq.
  - unfold close, modify. cbn [snd sys_modules set_files set_sys_modules].
    apply lookup_insert_eq.
  - reflexivity.
Qed.

Lemma onStart_retries_until_valid_witness :
  fst (onStart module_globals sample_env
         (sample_state ∅ [("/tmp", true); ("/home", true); ("/opt/aw", true);
                          ("ortho", true)] [sample_raster])) = Ret true /\
  files (snd (onStart module_globals sample_env
         (sample_state ∅ [("/tmp", true); ("/home", true); ("/opt/aw", true);
                          ("ortho", true)] [sample_raster])))
    !! memory_file = Some "/opt/aw" /\
  sys_modules (snd (onStart module_globals sample_env
         (sample_state ∅ [("/tmp", true); ("/home", true); ("/opt/aw", true);
                          ("ortho", true)] [sample_raster])))
    !! "AerialWare" = Some (FileModule "/opt/aw/AerialWare.py" true) /\
  replies (snd (onStart module_globals sample_env
         (sample_state ∅ [("/tmp", true); ("/home", true); ("/opt/aw", true);
                          ("ortho", true)] [sample_raster])))
    = [("ortho", true)].
Proof.
  apply (onStart_retries_until_valid sample_env
           (sample_state ∅ [("/tmp", true); ("/home", true); ("/opt/aw", true);
                            ("ortho", true)] [sample_raster])
           ["/tmp"; "/home"] "/opt/aw" [("ortho", true)]).
  - reflexivity.
  - repeat constructor; eexists; split; reflexivity.
  - reflexivity.
  - reflexivity.
Defined.



Lemma ask_path_inv (env : environment) (rs : list (string * bool)) :
  forall s : state,
  files s !! memory_file = Some "" ->
  (forall k, k <> memory_file ->
     files (snd (ask_path module_globals env opened_file rs s)) !! k
       = files s !! k) /\
  (forall k, k <> "AerialWare" ->
     sys_modules (snd (ask_path module_globals env opened_file rs s)) !! k
       = sys_modules s !! k) /\
  (fst (ask_path module_globals env opened_file rs s) = Ret true ->
     exists p,
       In (p, true) rs /\
       env_exec_module env (origin_of env p) = ExecOk /\
       files (snd (ask_path module_globals env opened_file rs s))
         !! memory_file = Some p /\
       sys_modules (snd (ask_path module_globals env opened_file rs s))
         !! "AerialWare" = Some (FileModule (origin_of env p) true)) /\
  (fst (ask_path module_globals env opened_file rs s) <> Ret true ->
     files (snd (ask_path module_globals env opened_file rs s))
       !! memory_file = Some "").
Proof.
  induction rs as [|[text ok] rest IH]; intros s Hmem.
  - change (ask_path module_globals env opened_file [] s)
      with (@Blocked bool, log (EGetText path_title path_label) s).
    cbn [fst snd files sys_modules log].
    split; [reflexivity|]. split; [reflexivity|].
    split; [discriminate | intros _; exact Hmem].
  - destruct ok.
    + destruct (env_exec_module env (origin_of env text)) as [|e] eqn:Hexec.
      * rewrite (ask_path_accept env opened_file text rest s Hexec eq_refl).
        cbn [fst snd]. rewrite (close_files _ _ "") by exact Hmem.
        unfold close, modify.
        cbn [snd files sys_modules set_files set_sys_modules f_name
             opened_file].
        split; [intros k Hk; rewrite lookup_insert_ne by congruence;
                reflexivity|].
        split.
        { intros k Hk. unfold registered.
          cbn [sys_modules log set_sys_modules set_replies prompted].
          rewrite !lookup_insert_ne by congruence. reflexivity. }
        split; [|congruence].
        intros _. exists text. split; [left; reflexivity|].
        split; [exact Hexec|]. rewrite !lookup_insert_eq.
        split; reflexivity.
      * destruct (is_Exception e) eqn:Hexc.
        -- rewrite (ask_path_retry _ _ _ _ _ _ Hexec Hexc).
           destruct (IH (registered (origin_of env text)
                           (prompted (text, true) rest s)) Hmem)
             as (Hfiles & Hregs & Htrue & Hother).
           split; [exact Hfiles|].
           split.
           { intros k Hk. rewrite (Hregs k Hk). unfold registered.
             cbn [sys_modules log set_sys_modules set_replies prompted].
             apply lookup_insert_ne. congruence. }
           split; [|exact Hother].
           intros Hret. destruct (Htrue Hret) as (p & Hin & Hp).
           exists p. split; [right; exact Hin | exact Hp].
        -- rewrite (ask_path_escape _ _ _ _ _ _ Hexec Hexc).
           cbn [fst snd]. split; [reflexivity|].
           split.
           { intros k Hk. unfold registered.
             cbn [sys_modules log set_sys_modules set_replies prompted].
             apply lookup_insert_ne. congruence. }
           split; [discriminate|]. intros _. exact Hmem.
    + rewrite ask_path_cancel. cbn [fst snd].
      rewrite (close_files _ _ "") by exact Hmem.
      unfold close, modify. cbn [snd sys_modules set_files f_name opened_file].
      split; [intros k Hk; rewrite lookup_insert_ne by congruence;
              reflexivity|].
      split; [reflexivity|]. split; [congruence|].
      intros _. rewrite lookup_insert_eq. reflexivity.
Qed.

Lemma after_open_memory (s : state) :
  files (after_open s) !! memory_file = Some "".
Proof. unfold after_open. cbn [files set_files]. apply lookup_insert_eq. Qed.

(** X6. Whenever [onStart] returns [True], the registry has an entry
    [AerialWare]: the lookup [sys.modules["AerialWare"]] that follows in
    [__init__] finds a module. *)
Theorem onStart_true_registers_module (env : environment) (s : state) :
  fst (onStart module_globals env s) = Ret true ->
  is_Some (sys_modules (snd (onStart module_globals env s)) !! "AerialWare").
Proof.
  destruct (env_default_import env) eqn:Hdef.
  - intros _. apply (onStart_default_import_short_circuit_aux env s Hdef).
  - rewrite (onStart_default_fails _ _ Hdef). intros Hret.
    destruct (ask_path_inv env (replies s) (after_open s) (after_open_memory s))
      as (_ & _ & Htrue & _).
    destruct (Htrue Hret) as (p & _ & _ & _ & Hreg). rewrite Hreg. eauto.
Qed.

Lemma onStart_true_registers_module_witness :
  is_Some (sys_modules
             (snd (onStart module_globals sample_env
                     (sample_state ∅ [("/opt/aw", true)] [sample_raster])))
           !! "AerialWare").
Proof.
  apply (onStart_true_registers_module sample_env
           (sample_state ∅ [("/opt/aw", true)] [sample_raster])).
  reflexivity.
Defined.

(** X7. After a run of [onStart] in which the default import failed, the
    memory file exists; it holds a folder the user entered and the module
    loaded from if [onStart] returned [True], and is empty in every other
    case (cancelled, still waiting, or ended by an exception). *)
Theorem onStart_memory_file_holds_working_path (env : environment)
    (s : state) :
  env_default_import env = false ->
  (fst (onStart module_globals env s) = Ret true ->
     exists p,
       In (p, true) (replies s) /\
       env_exec_module env (origin_of env p) = ExecOk /\
       files (snd (onStart module_globals env s)) !! memory_file = Some p) /\
  (fst (onStart module_globals env s) <> Ret true ->
     files (snd (onStart module_globals env s)) !! memory_file = Some "").
Proof.
  intros Hdef. rewrite (onStart_default_fails _ _ Hdef).
  destruct (ask_path_inv env (replies s) (after_open s) (after_open_memory s))
    as (_ & _ & Htrue & Hother).
  split; [|exact Hother].
  intros Hret. destruct (Htrue Hret) as (p & Hin & Hexec & Hfile & _).
  exists p. repeat split; assumption.
Qed.

Lemma onStart_memory_file_holds_working_path_witness :
  files (snd (onStart module_globals sample_env
                (sample_state {[ memory_file := "/opt/aw" ]}
                   [("/tmp", true)] [sample_raster])))
    !! memory_file = Some "".
Proof.
  apply (onStart_memory_file_holds_working_path sample_env
           (sample_state {[ memory_file := "/opt/aw" ]}
              [("/tmp", true)] [sample_raster]) eq_refl).
  discriminate.
Defined.

Lemma ask_path_replies (env : environment) (rs : list (string * bool)) :
  forall s : state,
  replies s = rs ->
  exists used,
    rs = used ++ replies (snd (ask_path module_globals env opened_file rs s)).
Proof.
  induction rs as [|[text ok] rest IH]; intros s Hrep.
  - exists [].
    change (ask_path module_globals env opened_file [] s)
      with (@Blocked bool, log (EGetText path_title path_label) s).
    cbn [snd replies log app]. symmetry. exact Hrep.
  - destruct ok.
    + destruct (env_exec_module env (origin_of env text)) as [|e] eqn:Hexec.
      * rewrite (ask_path_accept env opened_file text rest s Hexec eq_refl).
        exists [(text, true)]. reflexivity.
      * destruct (is_Exception e) eqn:Hexc.
        -- rewrite (ask_path_retry _ _ _ _ _ _ Hexec Hexc).
           destruct (IH (registered (origin_of env text)
                           (prompted (text, true) rest s)) eq_refl)
             as (used & Hused).
           exists ((text, true) :: used). cbn [app]. f_equal. exact Hused.
        -- rewrite (ask_path_escape _ _ _ _ _ _ Hexec Hexc).
           exists [(text, true)]. reflexivity.
    + rewrite ask_path_cancel. exists [(text, false)]. reflexivity.
Qed.

(** X8. [onStart] leaves the project's layers and the widget alone; all it
    adds to the trace are the import attempt, path prompts with their
    answers and module executions (no message box, no selection dialog, no
    host call); and it takes the user's replies from the front only: the
    replies left are a suffix of those it started with. *)
Theorem onStart_frame_dialogs (env : environment) (s : state) :
  project (snd (onStart module_globals env s)) = project s /\
  self_aw (snd (onStart module_globals env s)) = self_aw s /\
  (exists evs,
     trace (snd (onStart module_globals env s)) = trace s ++ evs /\
     Forall loader_event evs) /\
  (exists used,
     replies s = used ++ replies (snd (onStart module_globals env s))).
Proof.
  destruct (onStart_frame env s) as (evs & (Htr & Hproj & Haw) & Hall).
  split; [exact Hproj|]. split; [exact Haw|].
  split; [exists evs; split; assumption|].
  destruct (env_default_import env) eqn:Hdef.
  - exists []. unfold onStart, import_default. run. rewrite Hdef. reflexivity.
  - rewrite (onStart_default_fails _ _ Hdef).
    exact (ask_path_replies env (replies s) (after_open s) eq_refl).
Qed.

(** ** [__init__] *)

Lemma launch_eq (env : environment) (L : list string)
    (D : gmap string map_layer) (s : state) :
  launch module_globals env L D s =
    match replies s with
    | [] => (Blocked, log (EGetItem select_title select_label L) s)
    | (name, ok) :: rest =>
        if ok then
          match D !! name with
          | None => (Raise (KeyError name), answered L name true rest s)
          | Some layer =>
              match sys_modules s !! "AerialWare" with
              | None =>
                  (Raise (KeyError "AerialWare"), answered L name true rest s)
              | Some m =>
                  if env_has_widget env m then
                    match layer with
                    | Raster r =>
                        (Ret tt, launched r (answered L name true rest s))
                    | _ =>
                        (Raise (AttributeError "previewAsImage"),
                         set_self_aw (Some blank_widget)
                           (log (EWidgetNew true)
                              (answered L name true rest s)))
                    end
                  else
                    (Raise (AttributeError "AerialWareWidget"),
                     answered L name true rest s)
              end
          end
        else (Ret tt, answered L name false rest s)
    end.
Proof.
  unfold launch, getItem. run.
  destruct (replies s) as [|[name ok] rest]; cbn; [reflexivity|].
  destruct ok; cbn; [|reflexivity].
  destruct (D !! name) as [layer|]; cbn; [|reflexivity].
  destruct (sys_modules s !! "AerialWare") as [m|]; cbn; [|reflexivity].
  destruct (env_has_widget env m); cbn; [|reflexivity].
  destruct layer; reflexivity.
Qed.

Lemma launch_project (env : environment) (L : list string)
    (D : gmap string map_layer) (s : state) :
  project (snd (launch module_globals env L D s)) = project s.
Proof.
  rewrite launch_eq.
  destruct (replies s) as [|[name ok] rest]; [reflexivity|].
  destruct ok; [|reflexivity].
  destruct (D !! name) as [layer|]; [|reflexivity].
  destruct (sys_modules s !! "AerialWare") as [m|]; [|reflexivity].
  destruct (env_has_widget env m); [|reflexivity].
  destruct layer; reflexivity.
Qed.

Lemma parse_dict_dom (layers : list map_layer) :
  forall (D : gmap string map_layer) (name : string),
  is_Some (parse_dict layers D !! name) <->
  In name (raster_names layers) \/ is_Some (D !! name).
Proof.
  induction layers as [|l rest IH]; intros D name.
  - cbn. tauto.
  - unfold parse_dict, raster_names. cbn [fold_left List.filter].
    fold (parse_dict rest (if is_raster l then <[layer_name l := l]> D else D)).
    rewrite IH. destruct (is_raster l); [|tauto].
    cbn [map In]. fold (raster_names rest).
    destruct (decide (layer_name l = name)) as [Heq|Hne].
    + rewrite Heq, lookup_insert_eq. split; [tauto|]. intros _. right. eauto.
    + rewrite lookup_insert_ne by exact Hne. tauto.
Qed.

Lemma parse_dict_app (pre post : list map_layer) (D : gmap string map_layer) :
  parse_dict (pre ++ post) D = parse_dict post (parse_dict pre D).
Proof. unfold parse_dict. apply fold_left_app. Qed.

Lemma parse_dict_keeps (post : list map_layer) :
  forall (D : gmap string map_layer) (name : string),
  (forall b, In b post -> is_raster b = true -> layer_name b <> name) ->
  parse_dict post D !! name = D !! name.
Proof.
  induction post as [|b post IH]; intros D name Hfree; [reflexivity|].
  unfold parse_dict. cbn [fold_left].
  fold (parse_dict post (if is_raster b then <[layer_name b := b]> D else D)).
  rewrite IH by (intros c Hc; apply Hfree; right; exact Hc).
  destruct (is_raster b) eqn:Hb; [|reflexivity].
  apply lookup_insert_ne. apply Hfree; [left; reflexivity | exact Hb].
Qed.

(** X9. The error dialog is tied to the project having no layer at all:
    with an empty project [__init__] shows it and does nothing else (no
    import, no file, no reply consumed); with any layer in the project,
    raster or not, no message box is ever shown. *)
Theorem init_error_dialog_iff_no_layer (env : environment) (s : state) :
  (project s = [] ->
     init module_globals env s =
       (Ret tt, log (EMessageBox Critical no_raster_title no_raster_text) s)) /\
  (project s <> [] ->
     exists evs,
       trace (snd (init module_globals env s)) = trace s ++ evs /\
       forall icon title text, ~ In (EMessageBox icon title text) evs).
Proof.
  split.
  - intros Hp. unfold init. run. rewrite Hp. reflexivity.
  - intros Hp.
    destruct (init_trace env s Hp) as (evs1 & evs2 & Htr & Hall & Htail).
    exists (evs1 ++ evs2). split; [exact Htr|].
    intros icon title text Hin. apply in_app_or in Hin as [Hin|Hin].
    + exact (loader_event_not_dialog _ _ Hall Hin).
    + inversion Htail; subst evs2; cbn [In] in Hin;
        intuition discriminate.
Qed.

Lemma init_error_dialog_iff_no_layer_witness :
  init module_globals sample_env
    (sample_state {[ memory_file := "/opt/aw" ]} [("x", true)] [])
  = (Ret tt,
     log (EMessageBox Critical no_raster_title no_raster_text)
       (sample_state {[ memory_file := "/opt/aw" ]} [("x", true)] [])).
Proof.
  apply (init_error_dialog_iff_no_layer sample_env
           (sample_state {[ memory_file := "/opt/aw" ]} [("x", true)] [])).
  reflexivity.
Defined.

(** X10. When the loader gives up ([onStart] returns [False]), [__init__]
    schedules its own deletion and stops: no selection dialog, no widget of
    the tool, the project as it was. *)
Theorem init_loader_failure (env : environment) (s : state) :
  project s <> [] ->
  fst (onStart module_globals env s) = Ret false ->
  init module_globals env s =
    (Ret tt, log (EDeleteLater "self") (snd (onStart module_globals env s))) /\
  self_aw (snd (init module_globals env s)) = self_aw s /\
  project (snd (init module_globals env s)) = project s.
Proof.
  intros Hp Hret. rewrite (init_eq _ _ Hp).
  destruct (onStart_frame env s) as (evs & (_ & Hproj & Haw) & _).
  destruct (onStart module_globals env s) as [r s1]. cbn [fst snd] in *.
  subst r. cbn [snd self_aw project log]. repeat split; assumption.
Qed.

Lemma init_loader_failure_witness :
  init module_globals sample_env
    (sample_state ∅ [("/tmp", true); ("", false)] [sample_raster])
  = (Ret tt,
     log (EDeleteLater "self")
       (snd (onStart module_globals sample_env
               (sample_state ∅ [("/tmp", true); ("", false)]
                  [sample_raster])))).
Proof.
  apply (init_loader_failure sample_env
           (sample_state ∅ [("/tmp", true); ("", false)] [sample_raster])).
  - discriminate.
  - reflexivity.
Defined.

(** X11. [__init__] never adds, removes or reorders a layer of the
    project. *)
Theorem init_keeps_project (env : environment) (s : state) :
  project (snd (init module_globals env s)) = project s.
Proof.
  destruct (project s) as [|l rest] eqn:Hproj.
  - unfold init. run. rewrite Hproj. cbn. exact Hproj.
  - assert (Hp : project s <> []) by congruence.
    rewrite (init_eq _ _ Hp), <- Hproj.
    destruct (onStart_frame env s) as (evs & (_ & Hpr & _) & _).
    destruct (onStart module_globals env s) as [[[|]|e|] s1];
      cbn [snd] in *; try exact Hpr.
    rewrite launch_project. exact Hpr.
Qed.

Lemma parse_dict_complete (layers : list map_layer) (l : map_layer) :
  NoDup (raster_names layers) ->
  In l layers -> is_raster l = true ->
  parse_dict layers ∅ !! layer_name l = Some l.
Proof.
  intros Hnd Hin Hr.
  assert (Hsome : is_Some (parse_dict layers ∅ !! layer_name l)).
  { apply parse_dict_dom. left. unfold raster_names. apply in_map.
    apply filter_In. split; assumption. }
  destruct Hsome as [l' Hl']. rewrite Hl'. f_equal.
  destruct (parse_dict_lookup _ _ _ _ Hl') as [(Hin' & Hr' & Hn') | Hempty].
  - apply (raster_name_unique layers); assumption.
  - rewrite lookup_empty in Hempty. discriminate.
Qed.

(** X12. The selection dialog is editable: when the user accepts a text that
    names no raster layer of the project, [__init__] ends with [KeyError]
    for that text, before any widget of the tool is built. *)
Theorem init_unknown_name_KeyError (env : environment) (s s1 : state)
    (name : string) (rest : list (string * bool)) :
  project s <> [] ->
  onStart module_globals env s = (Ret true, s1) ->
  replies s1 = (name, true) :: rest ->
  ~ In name (raster_names (project s)) ->
  init module_globals env s =
    (Raise (KeyError name),
     answered (raster_names (project s)) name true rest s1) /\
  self_aw (snd (init module_globals env s)) = self_aw s.
Proof.
  intros Hp Hstart Hrep Hnot.
  destruct (onStart_frame env s) as (evs & (_ & _ & Haw) & _).
  rewrite Hstart in Haw. cbn [snd] in Haw.
  rewrite (init_eq _ _ Hp), Hstart, launch_eq, Hrep.
  destruct (parse_dict (project s) ∅ !! name) as [layer|] eqn:Hlook.
  - exfalso. apply Hnot.
    assert (Hsome : is_Some (parse_dict (project s) ∅ !! name)) by eauto.
    apply parse_dict_dom in Hsome as [Hin|[x Hx]]; [exact Hin|].
    rewrite lookup_empty in Hx. discriminate.
  - split; [reflexivity | exact Haw].
Qed.

Lemma init_unknown_name_KeyError_witness :
  fst (init module_globals sample_env
         (sample_state ∅ [("/opt/aw", true); ("orto", true)]
            [sample_roads; sample_raster]))
  = Raise (KeyError "orto").
Proof.
  pose proof (init_unknown_name_KeyError sample_env
           (sample_state ∅ [("/opt/aw", true); ("orto", true)]
              [sample_roads; sample_raster])
           (snd (onStart module_globals sample_env
                   (sample_state ∅ [("/opt/aw", true); ("orto", true)]
                      [sample_roads; sample_raster])))
           "orto" []) as H.
  destruct H as [Heq _].
  - discriminate.
  - reflexivity.
  - reflexivity.
  - cbn. intros [Hin|[]]. discriminate Hin.
  - rewrite Heq. reflexivity.
Defined.

(** X13. The list handed to the selection dialog and the dictionary used to
    resolve the answer agree: the loop of lines 45-50 leaves the state alone,
    lists the names of the raster layers in project order, and binds exactly
    the listed names, each to a raster layer of the project bearing it. *)
Theorem parse_layers_list_and_dict (layers : list map_layer) (s : state) :
  exists D,
    parse_layers module_globals layers [] ∅ s
      = (Ret (raster_names layers, D), s) /\
    (forall name, is_Some (D !! name) <-> In name (raster_names layers)) /\
    (forall name l, D !! name = Some l ->
       In l layers /\ is_raster l = true /\ layer_name l = name).
Proof.
  exists (parse_dict layers ∅). split; [|split].
  - rewrite parse_layers_eq. reflexivity.
  - intros name. rewrite parse_dict_dom. split; [|tauto].
    intros [Hin|[x Hx]]; [exact Hin|].
    rewrite lookup_empty in Hx. discriminate.
  - intros name l Hl.
    destruct (parse_dict_lookup _ _ _ _ Hl) as [H|Hempty]; [exact H|].
    rewrite lookup_empty in Hempty. discriminate.
Qed.

(** X14. Raster layers sharing a name are all listed, but the dictionary
    keeps only the last of them: the name resolves to the raster layer after
    which no raster layer of that name follows. *)
Theorem parse_layers_last_of_name_wins (pre post : list map_layer)
    (a : map_layer) (s : state) :
  is_raster a = true ->
  (forall b, In b post -> is_raster b = true -> layer_name b <> layer_name a) ->
  exists L D,
    parse_layers module_globals (pre ++ a :: post) [] ∅ s = (Ret (L, D), s) /\
    D !! layer_name a = Some a /\
    L = raster_names pre ++ layer_name a :: raster_names post.
Proof.
  intros Ha Hfree.
  exists (raster_names (pre ++ a :: post)), (parse_dict (pre ++ a :: post) ∅).
  split; [rewrite parse_layers_eq; reflexivity|]. split.
  - rewrite parse_dict_app. unfold parse_dict at 1. cbn [fold_left].
    rewrite Ha.
    fold (parse_dict post (<[layer_name a := a]> (parse_dict pre ∅))).
    rewrite (parse_dict_keeps post _ _ Hfree). apply lookup_insert_eq.
  - unfold raster_names. rewrite List.filter_app, List.map_app. cbn [List.filter].
    rewrite Ha. reflexivity.
Qed.

Lemma parse_layers_last_of_name_wins_witness :
  exists L D,
    parse_layers module_globals [sample_raster; sample_raster_small] [] ∅
      (sample_state ∅ [] [sample_raster; sample_raster_small])
      = (Ret (L, D),
         sample_state ∅ [] [sample_raster; sample_raster_small]) /\
    D !! "ortho" = Some sample_raster_small /\
    L = ["ortho"; "ortho"].
Proof.
  apply (parse_layers_last_of_name_wins [sample_raster] [] sample_raster_small
           (sample_state ∅ [] [sample_raster; sample_raster_small])).
  - reflexivity.
  - intros b [].
Defined.

(** X15. When the loader has succeeded, the registered module provides the
    widget, layer names are distinct and the user accepts the name of the
    raster layer [r], [__init__] returns with the tool's widget built in
    standalone mode, showing the preview of [r] at the layer's own width and
    height, with [onEnd] connected; later replies are left untouched. *)
Theorem init_launches_selected_layer (env : environment) (s s1 : state)
    (r : QgsRasterLayer) (m : module_obj) (rest : list (string * bool)) :
  NoDup (raster_names (project s)) ->
  In (Raster r) (project s) ->
  onStart module_globals env s = (Ret true, s1) ->
  sys_modules s1 !! "AerialWare" = Some m ->
  env_has_widget env m = true ->
  replies s1 = (r_name r, true) :: rest ->
  init module_globals env s =
    (Ret tt,
     launched r (answered (raster_names (project s)) (r_name r) true rest s1)) /\
  self_aw (snd (init module_globals env s)) = Some (loaded_widget r) /\
  replies (snd (init module_globals env s)) = rest.
Proof.
  intros Hnd Hin Hstart Hreg Hwid Hrep.
  assert (Hp : project s <> []) by (intros H; rewrite H in Hin; exact Hin).
  rewrite (init_eq _ _ Hp), Hstart, launch_eq, Hrep.
  pose proof (parse_dict_complete (project s) (Raster r) Hnd Hin eq_refl)
    as Hdict.
  cbn [layer_name] in Hdict. rewrite Hdict, Hreg, Hwid. repeat split.
Qed.

Lemma init_launches_selected_layer_witness :
  self_aw (snd (init module_globals sample_env
                  (sample_state ∅ [("/opt/aw", true); ("ortho", true)]
                     [sample_roads; sample_raster])))
  = Some (loaded_widget {| r_name := "ortho"; r_width := 640;
                           r_height := 480 |}).
Proof.
  apply (init_launches_selected_layer sample_env
           (sample_state ∅ [("/opt/aw", true); ("ortho", true)]
              [sample_roads; sample_raster])
           (snd (onStart module_globals sample_env
                   (sample_state ∅ [("/opt/aw", true); ("ortho", true)]
                      [sample_roads; sample_raster])))
           {| r_name := "ortho"; r_width := 640; r_height := 480 |}
           (FileModule "/opt/aw/AerialWare.py" true) []).
  - apply NoDup_singleton.
  - right. left. reflexivity.
  - reflexivity.
  - reflexivity.
  - reflexivity.
  - reflexivity.
Defined.

(** X16. When the user cancels the selection dialog, [__init__] returns
    without building the tool's widget and, unlike on a loader failure,
    without scheduling its own deletion: the dialog and its answer are the
    last things observed. *)
Theorem init_cancel_selection (env : environment) (s s1 : state)
    (name : string) (rest : list (string * bool)) :
  project s <> [] ->
  onStart module_globals env s = (Ret true, s1) ->
  replies s1 = (name, false) :: rest ->
  init module_globals env s =
    (Ret tt, answered (raster_names (project s)) name false rest s1) /\
  self_aw (snd (init module_globals env s)) = self_aw s /\
  trace (snd (init module_globals env s)) =
    trace s1 ++ [EGetItem select_title select_label (raster_names (project s));
                 EAnswer name false].
Proof.
  intros Hp Hstart Hrep.
  destruct (onStart_frame env s) as (evs & (_ & _ & Haw) & _).
  rewrite Hstart in Haw. cbn [snd] in Haw.
  rewrite (init_eq _ _ Hp), Hstart, launch_eq, Hrep.
  split; [reflexivity|]. split; [exact Haw|].
  unfold answered. cbn [snd trace log set_replies].
  rewrite <- app_assoc. reflexivity.
Qed.

Lemma init_cancel_selection_witness :
  fst (init module_globals sample_env
         (sample_state ∅ [("/opt/aw", true); ("ortho", false)]
            [sample_raster])) = Ret tt /\
  self_aw (snd (init module_globals sample_env
                  (sample_state ∅ [("/opt/aw", true); ("ortho", false)]
                     [sample_raster]))) = None.
Proof.
  destruct (init_cancel_selection sample_env
              (sample_state ∅ [("/opt/aw", true); ("ortho", false)]
                 [sample_raster])
              (snd (onStart module_globals sample_env
                      (sample_state ∅ [("/opt/aw", true); ("ortho", false)]
                         [sample_raster])))
              "ortho" []) as (Heq & Haw & _).
  - discriminate.
  - reflexivity.
  - reflexivity.
  - rewrite Heq. split; [reflexivity | exact Haw].
Defined.

(** ** [makeLayer] and [onEnd] in a namespace that binds their names *)

Lemma binds_converter_names_inv (G : list string) :
  binds_converter_names G ->
  name_bound G "QgsPoint" = true /\ name_bound G "QgsFeature" = true /\
  name_bound G "QgsGeometry" = true /\ name_bound G "QgsField" = true /\
  name_bound G "QVariant" = true /\ name_bound G "QgsFields" = true /\
  name_bound G "QgsVectorLayer" = true.
Proof.
  unfold binds_converter_names, converter_names. cbn [forallb].
  rewrite !andb_true_iff. tauto.
Qed.

Lemma repaired_globals_bind : binds_converter_names repaired_globals.
Proof. reflexivity. Qed.

Lemma second_points_in (G : list string) (height : scalar)
    (lines : list QLineF) :
  name_bound G "QgsPoint" = true ->
  forall (points : list QgsPoint) (s : state),
  second_points G height lines points s =
    (Ret (points ++ map (fun l => measured height (p2 l)) lines),
     log_all (map (fun l => ENewPoint (p2 l)) lines) s).
Proof.
  intros HP. induction lines as [|l rest IH]; intros points s.
  - cbn. rewrite app_nil_r, log_all_nil. reflexivity.
  - cbn [second_points]. unfold new_point, load_global. rewrite HP.
    cbv beta iota zeta delta [mbind M_bind mret M_ret emit modify].
    rewrite IH, log_log_all, <- app_assoc. reflexivity.
Qed.

Lemma makeLayer_in (G : list string) (env : environment) (line0 : QLineF)
    (rest : list QLineF) (name : string) (s : state) (w : AerialWareWidget) :
  binds_converter_names G ->
  self_aw s = Some w ->
  makeLayer G env (line0 :: rest) name s =
    (Ret tt,
     set_project (fun layers =>
         layers ++ [Vector (built_layer (env_tool env) line0 (line0 :: rest) name)])
       (log_all
          (ENewPoint (p1 line0)
             :: map (fun l => ENewPoint (p2 l)) (line0 :: rest)
             ++ host_calls (env_tool env) line0 (line0 :: rest) name)
          s)).
Proof.
  intros HG Haw.
  destruct (binds_converter_names_inv G HG)
    as (H1 & H2 & H3 & H4 & H5 & H6 & H7).
  destruct s as [mods fs rs aw proj tr]. cbn in Haw. subst aw.
  run_conv. rewrite ?H1, ?H2, ?H3, ?H4, ?H5, ?H6, ?H7.
  cbv beta iota.
  rewrite (second_points_in G _ _ H1).
  run_conv. cbn [app]. run_conv.
  rewrite <- !app_assoc. cbn [app].
  reflexivity.
Qed.

(** X17. In a namespace that binds the names [makeLayer] uses, and with the
    widget present, [makeLayer] on a path of at least one segment returns
    and appends exactly one vector layer to the project: a memory layer of
    the given name, committed, with fresh extents, holding one feature whose
    fields are the layer's six fields and whose polyline has one point more
    than the path has segments: the first point of the first segment, then
    the second point of every segment, each with the flight height as its
    measure. *)
Theorem makeLayer_adds_one_layer (G : list string) (env : environment)
    (line0 : QLineF) (rest : list QLineF) (name : string) (s : state)
    (w : AerialWareWidget) :
  binds_converter_names G ->
  self_aw s = Some w ->
  exists layer feature pts,
    fst (makeLayer G env (line0 :: rest) name s) = Ret tt /\
    project (snd (makeLayer G env (line0 :: rest) name s))
      = project s ++ [Vector layer] /\
    v_name layer = name /\ v_uri layer = "LineString?crs=epsg:4326" /\
    v_provider_key layer = "memory" /\
    v_editing layer = false /\ v_extent_fresh layer = true /\
    v_features layer = [feature] /\
    v_fields layer = f_fields feature /\
    v_provider_fields layer = f_fields feature /\
    map field_name (f_fields feature)
      = ["max_area_to_capture_height"; "max_area_to_capture_width";
         "meters_in_pixel_ratio"; "resolution_height"; "resolution_width";
         "camera_focal_length"] /\
    f_geometry feature = Some (Polyline pts) /\
    length pts = S (length (line0 :: rest)) /\
    (forall p, In p pts -> pm p = Some (flightHeight (env_tool env))) /\
    map (fun p => (px p, py p)) pts
      = (qx (p1 line0), qy (p1 line0))
          :: map (fun l => (qx (p2 l), qy (p2 l))) (line0 :: rest).
Proof.
  intros HG Haw.
  exists (built_layer (env_tool env) line0 (line0 :: rest) name),
    (built_feature (env_tool env) line0 (line0 :: rest)),
    (path_points (flightHeight (env_tool env)) line0 (line0 :: rest)).
  rewrite (makeLayer_in G env line0 rest name s w HG Haw).
  repeat (split; [reflexivity|]).
  split; [apply path_points_length|].
  split; [apply path_points_measure|].
  unfold path_points. cbn [map]. rewrite map_map. reflexivity.
Qed.

Lemma makeLayer_adds_one_layer_witness :
  exists layer feature pts,
    fst (makeLayer repaired_globals sample_env
           (pathByMeridians sample_tool) "Meridians" sample_done_state)
      = Ret tt /\
    project (snd (makeLayer repaired_globals sample_env
                    (pathByMeridians sample_tool) "Meridians"
                    sample_done_state))
      = [sample_raster; Vector layer] /\
    v_features layer = [feature] /\
    f_geometry feature = Some (Polyline pts) /\
    length pts = 3%nat.
Proof.
  destruct (makeLayer_adds_one_layer repaired_globals sample_env
              {| p1 := {| qx := 0; qy := 0 |}; p2 := {| qx := 0; qy := 5 |} |}
              [ {| p1 := {| qx := 0; qy := 5 |}; p2 := {| qx := 1; qy := 5 |} |} ]
              "Meridians" sample_done_state
              {| aw_standalone := true; aw_image := None; aw_shown := true;
                 aw_done_connected := true; aw_closed := false |}
              repaired_globals_bind eq_refl)
    as (layer & feature & pts & Hret & Hproj & _ & _ & _ & _ & _ & Hfeat
        & _ & _ & _ & Hgeom & Hlen & _).
  exists layer, feature, pts. repeat split; assumption.
Defined.

(** X18. Only the first segment's start point enters the geometry: two paths
    with the same first start point and the same end points give the same
    layer, whether or not their segments connect. *)
Theorem makeLayer_ignores_later_start_points (G : list string)
    (env : environment) (line0 line0' : QLineF) (rest rest' : list QLineF)
    (name : string) (s : state) (w : AerialWareWidget) :
  binds_converter_names G ->
  self_aw s = Some w ->
  p1 line0 = p1 line0' ->
  map p2 (line0 :: rest) = map p2 (line0' :: rest') ->
  project (snd (makeLayer G env (line0 :: rest) name s))
    = project (snd (makeLayer G env (line0' :: rest') name s)).
Proof.
  intros HG Haw Hfirst Hends.
  rewrite (makeLayer_in G env line0 rest name s w HG Haw).
  rewrite (makeLayer_in G env line0' rest' name s w HG Haw).
  cbn [snd project set_project log_all]. do 3 f_equal.
  unfold built_layer, built_feature, path_points.
  assert (Hpts : forall ls,
            map (fun l => measured (flightHeight (env_tool env)) (p2 l)) ls
            = map (measured (flightHeight (env_tool env))) (map p2 ls)).
  { intros ls. rewrite map_map. reflexivity. }
  rewrite !Hpts, Hends, Hfirst. reflexivity.
Qed.

Lemma makeLayer_ignores_later_start_points_witness :
  project (snd (makeLayer repaired_globals sample_env
                  [ {| p1 := {| qx := 0; qy := 0 |}; p2 := {| qx := 0; qy := 5 |} |};
                    {| p1 := {| qx := 0; qy := 5 |}; p2 := {| qx := 1; qy := 5 |} |} ]
                  "Meridians" sample_done_state))
  = project (snd (makeLayer repaired_globals sample_env
                  [ {| p1 := {| qx := 0; qy := 0 |}; p2 := {| qx := 0; qy := 5 |} |};
                    {| p1 := {| qx := 9; qy := 9 |}; p2 := {| qx := 1; qy := 5 |} |} ]
                  "Meridians" sample_done_state)).
Proof.
  apply (makeLayer_ignores_later_start_points repaired_globals sample_env
           {| p1 := {| qx := 0; qy := 0 |}; p2 := {| qx := 0; qy := 5 |} |}
           {| p1 := {| qx := 0; qy := 0 |}; p2 := {| qx := 0; qy := 5 |} |}
           [ {| p1 := {| qx := 0; qy := 5 |}; p2 := {| qx := 1; qy := 5 |} |} ]
           [ {| p1 := {| qx := 9; qy := 9 |}; p2 := {| qx := 1; qy := 5 |} |} ]
           "Meridians" sample_done_state
           {| aw_standalone := true; aw_image := None; aw_shown := true;
              aw_done_connected := true; aw_closed := false |}
           repaired_globals_bind eq_refl eq_refl eq_refl).
Defined.

Lemma makeLayer_nil (G : list string) (env : environment) (name : string)
    (s : state) (w : AerialWareWidget) :
  name_bound G "QgsPoint" = true ->
  self_aw s = Some w ->
  makeLayer G env [] name s = (Raise IndexError, s).
Proof.
  intros HP Haw. unfold makeLayer.
  erewrite bind_eq by (apply getattr_aw_eq; exact Haw).
  unfold load_global. rewrite HP. reflexivity.
Qed.

(** X19. On an empty path [makeLayer] raises [IndexError] at [lines[0]]
    (once [QgsPoint] resolves) and has done nothing by then. *)
Theorem makeLayer_empty_path (G : list string) (env : environment)
    (name : string) (s : state) (w : AerialWareWidget) :
  name_bound G "QgsPoint" = true ->
  self_aw s = Some w ->
  makeLayer G env [] name s = (Raise IndexError, s).
Proof. exact (makeLayer_nil G env name s w). Qed.

Lemma makeLayer_empty_path_witness :
  makeLayer repaired_globals sample_env [] "Horizontals" sample_done_state
  = (Raise IndexError, sample_done_state).
Proof.
  apply (makeLayer_empty_path repaired_globals sample_env "Horizontals"
           sample_done_state
           {| aw_standalone := true; aw_image := None; aw_shown := true;
              aw_done_connected := true; aw_closed := false |}).
  - reflexivity.
  - reflexivity.
Defined.

Lemma bind_raise {A B : Type} (m : M A) (f : A -> M B) (s s' : state)
    (e : exn) :
  m s = (Raise e, s') -> (m ≫= f) s = (Raise e, s').
Proof. intros H. unfold mbind, M_bind. rewrite H. reflexivity. Qed.

(** X20. [onEnd] is not atomic: when the meridians path has segments and the
    horizontals path is empty, the [Meridians] layer is already in the
    project when [IndexError] ends the run, and the tool's widget is left
    open. *)
Theorem onEnd_partial (G : list string) (env : environment) (s : state)
    (w : AerialWareWidget) (m0 : QLineF) (ms : list QLineF) :
  binds_converter_names G ->
  self_aw s = Some w ->
  pathByMeridians (env_tool env) = m0 :: ms ->
  pathByHorizontals (env_tool env) = [] ->
  fst (onEnd G env s) = Raise IndexError /\
  project (snd (onEnd G env s)) =
    project s ++ [Vector (built_layer (env_tool env) m0 (m0 :: ms) "Meridians")] /\
  self_aw (snd (onEnd G env s)) = Some w /\
  trace (snd (onEnd G env s)) =
    trace s ++ ENewPoint (p1 m0)
      :: map (fun l => ENewPoint (p2 l)) (m0 :: ms)
      ++ host_calls (env_tool env) m0 (m0 :: ms) "Meridians".
Proof.
  intros HG Haw Hm Hh. unfold onEnd. rewrite Hm, Hh.
  destruct (binds_converter_names_inv G HG) as (HP & _).
  erewrite bind_eq by (apply getattr_aw_eq; exact Haw).
  erewrite bind_eq by (eapply makeLayer_in; [exact HG | exact Haw]).
  set (s1 := set_project _ _).
  assert (Haw1 : self_aw s1 = Some w) by exact Haw.
  erewrite bind_eq by (apply getattr_aw_eq; exact Haw1).
  erewrite bind_raise by (eapply makeLayer_nil; [exact HP | exact Haw1]).
  subst s1. repeat split. exact Haw.
Qed.

Lemma onEnd_partial_witness :
  fst (onEnd repaired_globals sample_env_no_horizontals sample_done_state)
    = Raise IndexError /\
  map layer_name
    (project (snd (onEnd repaired_globals sample_env_no_horizontals
                     sample_done_state)))
    = ["ortho"; "Meridians"].
Proof.
  destruct (onEnd_partial repaired_globals sample_env_no_horizontals
              sample_done_state
              {| aw_standalone := true; aw_image := None; aw_shown := true;
                 aw_done_connected := true; aw_closed := false |}
              {| p1 := {| qx := 0; qy := 0 |}; p2 := {| qx := 0; qy := 5 |} |}
              [ {| p1 := {| qx := 0; qy := 5 |}; p2 := {| qx := 1; qy := 5 |} |} ]
              repaired_globals_bind eq_refl eq_refl eq_refl)
    as (Hret & Hproj & _).
  split; [exact Hret|]. rewrite Hproj. reflexivity.
Defined.

(** X21. In a namespace that binds the converter's names, with both paths
    non-empty, [onEnd] returns after adding the layers [Meridians] and
    [Horizontals], in this order, behind the project's existing layers; it
    then closes the tool's widget and schedules the deletion of the widget
    and of itself.  Registry and files are untouched. *)
Theorem onEnd_complete (G : list string) (env : environment) (s : state)
    (w : AerialWareWidget) (m0 h0 : QLineF) (ms hs : list QLineF) :
  binds_converter_names G ->
  self_aw s = Some w ->
  pathByMeridians (env_tool env) = m0 :: ms ->
  pathByHorizontals (env_tool env) = h0 :: hs ->
  fst (onEnd G env s) = Ret tt /\
  project (snd (onEnd G env s)) =
    project s ++
      [Vector (built_layer (env_tool env) m0 (m0 :: ms) "Meridians");
       Vector (built_layer (env_tool env) h0 (h0 :: hs) "Horizontals")] /\
  self_aw (snd (onEnd G env s)) = Some (closed_widget w) /\
  trace (snd (onEnd G env s)) =
    trace s
      ++ (ENewPoint (p1 m0) :: map (fun l => ENewPoint (p2 l)) (m0 :: ms)
            ++ host_calls (env_tool env) m0 (m0 :: ms) "Meridians")
      ++ (ENewPoint (p1 h0) :: map (fun l => ENewPoint (p2 l)) (h0 :: hs)
            ++ host_calls (env_tool env) h0 (h0 :: hs) "Horizontals")
      ++ [EClose; EDeleteLater "aw"; EDeleteLater "self"] /\
  sys_modules (snd (onEnd G env s)) = sys_modules s /\
  files (snd (onEnd G env s)) = files s.
Proof.
  intros HG Haw Hm Hh. unfold onEnd. rewrite Hm, Hh.
  erewrite bind_eq by (apply getattr_aw_eq; exact Haw).
  erewrite bind_eq by (eapply makeLayer_in; [exact HG | exact Haw]).
  set (s1 := set_project _ _).
  assert (Haw1 : self_aw s1 = Some w) by exact Haw.
  erewrite bind_eq by (apply getattr_aw_eq; exact Haw1).
  erewrite bind_eq by (eapply makeLayer_in; [exact HG | exact Haw1]).
  set (s2 := set_project _ _).
  assert (Haw2 : self_aw s2 = Some w) by exact Haw.
  erewrite bind_eq by (apply getattr_aw_eq; exact Haw2).
  cbv beta iota zeta delta [mbind M_bind emit modify fst snd].
  subst s2 s1.
  cbn [project trace self_aw sys_modules files set_project log_all log
       set_self_aw].
  split; [reflexivity|]. split; [rewrite <- app_assoc; reflexivity|].
  split; [reflexivity|]. split; [|split; reflexivity].
  rewrite <- !app_assoc. reflexivity.
Qed.

Lemma onEnd_complete_witness :
  fst (onEnd repaired_globals sample_env sample_done_state) = Ret tt /\
  map layer_name
    (project (snd (onEnd repaired_globals sample_env sample_done_state)))
    = ["ortho"; "Meridians"; "Horizontals"].
Proof.
  destruct (onEnd_complete repaired_globals sample_env sample_done_state
              {| aw_standalone := true; aw_image := None; aw_shown := true;
                 aw_done_connected := true; aw_closed := false |}
              {| p1 := {| qx := 0; qy := 0 |}; p2 := {| qx := 0; qy := 5 |} |}
              {| p1 := {| qx := 0; qy := 0 |}; p2 := {| qx := 7; qy := 0 |} |}
              [ {| p1 := {| qx := 0; qy := 5 |}; p2 := {| qx := 1; qy := 5 |} |} ]
              []
              repaired_globals_bind eq_refl eq_refl eq_refl)
    as (Hret & Hproj & _).
  split; [exact Hret|]. rewrite Hproj. reflexivity.
Defined.

(** X22. In such a namespace the calls of one [makeLayer] run are, in order:
    the points (first start point, then every end point), [fromPolyline],
    [setGeometry], [setFields] with the six fields, the six [setAttribute]
    calls, the layer's construction, [startEditing], [addAttributes] with
    the same six fields, [updateFields], [addFeatures] with the one feature,
    [commitChanges], [updateExtents] and last [addMapLayer]. *)
Theorem makeLayer_call_order (G : list string) (env : environment)
    (line0 : QLineF) (rest : list QLineF) (name : string) (s : state)
    (w : AerialWareWidget) :
  binds_converter_names G ->
  self_aw s = Some w ->
  trace (snd (makeLayer G env (line0 :: rest) name s)) =
    trace s
      ++ ENewPoint (p1 line0) :: map (fun l => ENewPoint (p2 l)) (line0 :: rest)
      ++ [ EFromPolyline (path_points (flightHeight (env_tool env)) line0
                            (line0 :: rest));
           ESetGeometry (Polyline (path_points (flightHeight (env_tool env))
                                     line0 (line0 :: rest)));
           ESetFields layer_attrs;
           ESetAttribute "max_area_to_capture_height" (maxArea_h (env_tool env));
           ESetAttribute "max_area_to_capture_width" (maxArea_w (env_tool env));
           ESetAttribute "meters_in_pixel_ratio" (cameraRatio (env_tool env));
           ESetAttribute "resolution_height" (cameraResolution_h (env_tool env));
           ESetAttribute "resolution_width" (cameraResolution_w (env_tool env));
           ESetAttribute "camera_focal_length" (focalLength (env_tool env));
           ENewVectorLayer "LineString?crs=epsg:4326" name "memory";
           EStartEditing;
           EAddAttributes layer_attrs;
           EUpdateFields;
           EAddFeatures [built_feature (env_tool env) line0 (line0 :: rest)];
           ECommitChanges;
           EUpdateExtents;
           EAddMapLayer (built_layer (env_tool env) line0 (line0 :: rest) name) ].
Proof.
  intros HG Haw.
  rewrite (makeLayer_in G env line0 rest name s w HG Haw). reflexivity.
Qed.

Lemma makeLayer_call_order_witness :
  exists evs,
    trace (snd (makeLayer repaired_globals sample_env
                  (pathByHorizontals sample_tool) "Horizontals"
                  sample_done_state)) = evs /\
    length evs = 19%nat.
Proof.
  eexists. split.
  - apply (makeLayer_call_order repaired_globals sample_env
             {| p1 := {| qx := 0; qy := 0 |}; p2 := {| qx := 7; qy := 0 |} |}
             [] "Horizontals" sample_done_state
             {| aw_standalone := true; aw_image := None; aw_shown := true;
                aw_done_connected := true; aw_closed := false |}
             repaired_globals_bind eq_refl).
  - reflexivity.
Defined.

(** X23. Binding [QgsPoint] alone does not repair the converter: in a
    namespace that binds the names used up to line 160 but not [QgsFields],
    [makeLayer] builds the points and the polyline geometry and then raises
    [NameError] for [QgsFields]; no layer is created. *)
Theorem makeLayer_stops_at_QgsFields (G : list string) (env : environment)
    (line0 : QLineF) (rest : list QLineF) (name : string) (s : state)
    (w : AerialWareWidget) :
  name_bound G "QgsPoint" = true ->
  name_bound G "QgsFeature" = true ->
  name_bound G "QgsGeometry" = true ->
  name_bound G "QgsField" = true ->
  name_bound G "QVariant" = true ->
  name_bound G "QgsFields" = false ->
  self_aw s = Some w ->
  makeLayer G env (line0 :: rest) name s =
    (Raise (NameError "QgsFields"),
     log_all
       (ENewPoint (p1 line0)
          :: map (fun l => ENewPoint (p2 l)) (line0 :: rest)
          ++ [ EFromPolyline (path_points (flightHeight (env_tool env)) line0
                                (line0 :: rest));
               ESetGeometry (Polyline (path_points (flightHeight (env_tool env))
                                         line0 (line0 :: rest))) ])
       s).
Proof.
  intros H1 H2 H3 H4 H5 H6 Haw.
  destruct s as [mods fs rs aw proj tr]. cbn in Haw. subst aw.
  run_conv. rewrite ?H1, ?H2, ?H3, ?H4, ?H5, ?H6.
  cbv beta iota.
  rewrite (second_points_in G _ _ H1).
  run_conv. rewrite <- !app_assoc. cbn [app].
  reflexivity.
Qed.

Lemma makeLayer_stops_at_QgsFields_witness :
  fst (makeLayer ("QgsPoint" :: module_globals) sample_env
         (pathByMeridians sample_tool) "Meridians" sample_done_state)
    = Raise (NameError "QgsFields") /\
  project (snd (makeLayer ("QgsPoint" :: module_globals) sample_env
                  (pathByMeridians sample_tool) "Meridians"
                  sample_done_state))
    = [sample_raster].
Proof.
  pose proof (makeLayer_stops_at_QgsFields ("QgsPoint" :: module_globals)
             sample_env
             {| p1 := {| qx := 0; qy := 0 |}; p2 := {| qx := 0; qy := 5 |} |}
             [ {| p1 := {| qx := 0; qy := 5 |}; p2 := {| qx := 1; qy := 5 |} |} ]
             "Meridians" sample_done_state
             {| aw_standalone := true; aw_image := None; aw_shown := true;
                aw_done_connected := true; aw_closed := false |}
             eq_refl eq_refl eq_refl eq_refl eq_refl eq_refl eq_refl) as H.
  split.
  - exact (f_equal fst H).
  - exact (f_equal (fun r => project (snd r)) H).
Defined.

Ltac conv_stuck H1 :=
  run_conv; rewrite ?H1; cbv beta iota;
  rewrite ?(second_points_in _ _ _ H1);
  run_conv; cbn [app]; run_conv.

(** X24. [makeLayer] returns normally exactly when the namespace binds the
    seven names it evaluates, the path has at least one segment and the
    widget exists; in every other case it ends with an exception. *)
Theorem makeLayer_returns_iff (G : list string) (env : environment)
    (lines : list QLineF) (name : string) (s : state) :
  fst (makeLayer G env lines name s) = Ret tt <->
  binds_converter_names G /\ lines <> [] /\ is_Some (self_aw s).
Proof.
  split.
  - destruct s as [mods fs rs [w|] proj tr];
      [|intros H; revert H; run_conv; discriminate].
    destruct (name_bound G "QgsPoint") eqn:H1;
      [|intros H; revert H; run_conv; rewrite H1; discriminate].
    destruct lines as [|line0 rest];
      [intros H; revert H; run_conv; rewrite H1; discriminate|].
    unfold binds_converter_names, converter_names. cbn [forallb].
    rewrite H1.
    destruct (name_bound G "QgsFeature") eqn:H2;
      [|intros H; revert H; conv_stuck H1; rewrite ?H2; discriminate].
    destruct (name_bound G "QgsGeometry") eqn:H3;
      [|intros H; revert H; conv_stuck H1; rewrite ?H2, ?H3; discriminate].
    destruct (name_bound G "QgsField") eqn:H4;
      [|intros H; revert H; conv_stuck H1; rewrite ?H2, ?H3, ?H4;
        discriminate].
    destruct (name_bound G "QVariant") eqn:H5;
      [|intros H; revert H; conv_stuck H1; rewrite ?H2, ?H3, ?H4, ?H5;
        discriminate].
    destruct (name_bound G "QgsFields") eqn:H6;
      [|intros H; revert H; conv_stuck H1; rewrite ?H2, ?H3, ?H4, ?H5, ?H6;
        discriminate].
    destruct (name_bound G "QgsVectorLayer") eqn:H7;
      [|intros H; revert H; conv_stuck H1;
        rewrite ?H2, ?H3, ?H4, ?H5, ?H6, ?H7; discriminate].
    intros _. split; [reflexivity|]. split; [discriminate | eauto].
  - intros (HG & Hlines & [w Haw]).
    destruct lines as [|line0 rest]; [congruence|].
    rewrite (makeLayer_in G env line0 rest name s w HG Haw). reflexivity.
Qed.

(** ** The selection, as the code resolves it *)

Lemma parse_dict_snoc (layers : list map_layer) (x : map_layer)
    (D : gmap string map_layer) :
  parse_dict (layers ++ [x]) D =
    if is_raster x then <[layer_name x := x]> (parse_dict layers D)
    else parse_dict layers D.
Proof. rewrite parse_dict_app. reflexivity. Qed.

(** A name resolves to the last raster layer bearing it. *)
Lemma parse_dict_last (layers : list map_layer) :
  forall (name : string) (l : map_layer),
  parse_dict layers ∅ !! name = Some l ->
  exists pre post,
    layers = pre ++ l :: post /\
    is_raster l = true /\ layer_name l = name /\
    forall b, In b post -> is_raster b = true -> layer_name b <> name.
Proof.
  induction layers as [|x layers IH] using rev_ind; intros name l Hlook.
  - unfold parse_dict in Hlook. cbn [fold_left] in Hlook.
    rewrite lookup_empty in Hlook. discriminate.
  - rewrite parse_dict_snoc in Hlook.
    destruct (is_raster x) eqn:Hx.
    + destruct (decide (layer_name x = name)) as [Heq|Hne].
      * rewrite Heq, lookup_insert_eq in Hlook. inversion Hlook; subst l.
        exists layers, []. repeat split; try assumption. intros b [].
      * rewrite lookup_insert_ne in Hlook by exact Hne.
        destruct (IH _ _ Hlook) as (pre & post & Hsplit & Hr & Hn & Hfree).
        exists pre, (post ++ [x]). split; [|split; [|split]]; try assumption.
        -- rewrite Hsplit, <- app_assoc. reflexivity.
        -- intros b Hb Hbr. apply in_app_or in Hb as [Hb|[<-|[]]].
           ++ apply Hfree; assumption.
           ++ exact Hne.
    + destruct (IH _ _ Hlook) as (pre & post & Hsplit & Hr & Hn & Hfree).
      exists pre, (post ++ [x]). split; [|split; [|split]]; try assumption.
      * rewrite Hsplit, <- app_assoc. reflexivity.
      * intros b Hb Hbr. apply in_app_or in Hb as [Hb|[<-|[]]].
        -- apply Hfree; assumption.
        -- congruence.
Qed.

(** C7, refuted as stated.  Two raster layers of the project are both named
    [ortho]: the selection dialog lists [ortho] twice, so its two items are
    not distinct names, and on the answer [ortho] the preview handed to the
    tool is that of the second layer although the first raster layer bears
    the selected name as well. *)
Lemma init_duplicate_names_counterexample :
  raster_names [sample_raster; sample_raster_small] = ["ortho"; "ortho"] /\
  ~ NoDup ["ortho"; "ortho"] /\
  trace (snd (init module_globals sample_env
                (sample_state ∅ [("/opt/aw", true); ("ortho", true)]
                   [sample_raster; sample_raster_small])))
    = [EImportDefault;
       EGetText path_title path_label;
       EAnswer "/opt/aw" true;
       EExecModule "/opt/aw/AerialWare.py";
       EGetItem select_title select_label ["ortho"; "ortho"];
       EAnswer "ortho" true;
       EWidgetNew true;
       ELoadImage (preview {| r_name := "ortho"; r_width := 64;
                              r_height := 48 |});
       EShow; EConnectDone] /\
  is_raster sample_raster = true /\
  layer_name sample_raster = "ortho" /\
  sample_raster <> sample_raster_small.
Proof.
  split; [reflexivity|]. split.
  { intros Hnd. apply NoDup_cons in Hnd as [Hnotin _].
    apply Hnotin. apply list_elem_of_In. left. reflexivity. }
  split; [vm_compute; reflexivity|].
  split; [reflexivity|]. split; [reflexivity|]. discriminate.
Qed.

(** C7, amended.  For every project with at least one layer, once the loader
    has succeeded the selection dialog is presented, with exactly the names
    of the project's raster layers in project order, one item per raster
    layer (non-raster layers excluded).  When the user then accepts a listed
    name and the registered module provides the widget, [__init__] returns
    having handed to the tool the preview of the last raster layer bearing
    that name, which is the only one whenever the raster layers' names are
    distinct. *)
Theorem init_selection_binds_last_layer (env : environment) (s s1 : state) :
  project s <> [] ->
  onStart module_globals env s = (Ret true, s1) ->
  exists evs,
    trace (snd (init module_globals env s)) =
      trace s1
        ++ EGetItem select_title select_label
             (map layer_name (List.filter is_raster (project s))) :: evs /\
    length (map layer_name (List.filter is_raster (project s)))
      = length (List.filter is_raster (project s)) /\
    (forall name rest m,
       replies s1 = (name, true) :: rest ->
       In name (map layer_name (List.filter is_raster (project s))) ->
       sys_modules s1 !! "AerialWare" = Some m ->
       env_has_widget env m = true ->
       exists pre r post,
         project s = pre ++ Raster r :: post /\
         r_name r = name /\
         (forall b, In b post -> is_raster b = true -> layer_name b <> name) /\
         evs = [EAnswer name true; EWidgetNew true; ELoadImage (preview r);
                EShow; EConnectDone] /\
         fst (init module_globals env s) = Ret tt /\
         self_aw (snd (init module_globals env s)) = Some (loaded_widget r) /\
         (NoDup (map layer_name (List.filter is_raster (project s))) ->
          forall l, In l (project s) -> is_raster l = true ->
            layer_name l = name -> l = Raster r)).
Proof.
  intros Hp Hstart. fold (raster_names (project s)).
  rewrite (init_eq _ _ Hp), Hstart, launch_eq.
  destruct (replies s1) as [|[name0 ok0] rest0].
  { exists []. split; [reflexivity|]. split; [apply length_map|].
    intros name rest m Hrep. discriminate Hrep. }
  destruct ok0.
  2:{ exists [EAnswer name0 false]. split.
      { unfold answered. cbn [snd trace log set_replies].
        rewrite <- app_assoc. reflexivity. }
      split; [apply length_map|].
      intros name rest m Hrep. discriminate Hrep. }
  destruct (parse_dict (project s) ∅ !! name0) as [layer|] eqn:Hlook.
  2:{ exists [EAnswer name0 true]. split.
      { unfold answered. cbn [snd trace log set_replies].
        rewrite <- app_assoc. reflexivity. }
      split; [apply length_map|].
      intros name rest m Hrep Hin _ _. inversion Hrep; subst name0 rest0.
      assert (Hsome : is_Some (parse_dict (project s) ∅ !! name)).
      { apply parse_dict_dom. left. exact Hin. }
      rewrite Hlook in Hsome. destruct Hsome as [x Hx]. discriminate Hx. }
  destruct (sys_modules s1 !! "AerialWare") as [m0|].
  2:{ exists [EAnswer name0 true]. split.
      { unfold answered. cbn [snd trace log set_replies].
        rewrite <- app_assoc. reflexivity. }
      split; [apply length_map|].
      intros name rest m _ _ Hm. discriminate Hm. }
  destruct (env_has_widget env m0) eqn:Hwid.
  2:{ exists [EAnswer name0 true]. split.
      { unfold answered. cbn [snd trace log set_replies].
        rewrite <- app_assoc. reflexivity. }
      split; [apply length_map|].
      intros name rest m _ _ Hm Hw. inversion Hm; subst m0. congruence. }
  destruct (parse_dict_last _ _ _ Hlook)
    as (pre & post & Hsplit & Hr & Hn & Hfree).
  destruct layer as [r|v|n|n]; try discriminate Hr.
  exists [EAnswer name0 true; EWidgetNew true; ELoadImage (preview r);
          EShow; EConnectDone].
  split.
  { unfold launched, answered. cbn [snd trace log set_replies set_self_aw].
    rewrite <- !app_assoc. reflexivity. }
  split; [apply length_map|].
  intros name rest m Hrep Hin _ _. injection Hrep as Hname Hrest.
  rewrite <- Hname. clear Hname Hrest Hin name rest.
  exists pre, r, post. cbn [layer_name] in Hn.
  split; [exact Hsplit|]. split; [exact Hn|]. split; [exact Hfree|].
  split; [reflexivity|]. split; [reflexivity|]. split; [reflexivity|].
  intros Hnd l Hl Hlr Hln.
  apply (raster_name_unique (project s) l (Raster r) Hnd Hl Hlr).
  - rewrite Hsplit. apply in_or_app. right. left. reflexivity.
  - reflexivity.
  - cbn [layer_name]. congruence.
Qed.

Lemma init_selection_binds_last_layer_witness :
  exists evs,
    trace (snd (init module_globals sample_env
                  (sample_state ∅ [("/opt/aw", true); ("ortho", true)]
                     [sample_raster; sample_roads; sample_raster_small])))
    = trace (snd (onStart module_globals sample_env
                    (sample_state ∅ [("/opt/aw", true); ("ortho", true)]
                       [sample_raster; sample_roads; sample_raster_small])))
        ++ EGetItem select_title select_label ["ortho"; "ortho"] :: evs /\
    exists pre r post,
      [sample_raster; sample_roads; sample_raster_small]
        = pre ++ Raster r :: post /\
      r_name r = "ortho" /\
      (forall b, In b post -> is_raster b = true -> layer_name b <> "ortho") /\
      evs = [EAnswer "ortho" true; EWidgetNew true; ELoadImage (preview r);
             EShow; EConnectDone].
Proof.
  destruct (init_selection_binds_last_layer sample_env
              (sample_state ∅ [("/opt/aw", true); ("ortho", true)]
                 [sample_raster; sample_roads; sample_raster_small])
              (snd (onStart module_globals sample_env
                      (sample_state ∅ [("/opt/aw", true); ("ortho", true)]
                         [sample_raster; sample_roads; sample_raster_small]))))
    as (evs & Htr & _ & Hbind).
  - discriminate.
  - reflexivity.
  - destruct (Hbind "ortho" [] (FileModule "/opt/aw/AerialWare.py" true))
      as (pre & r & post & Hsplit & Hname & Hfree & Hevs & _).
    + reflexivity.
    + left. reflexivity.
    + reflexivity.
    + reflexivity.
    + exists evs. split; [exact Htr|].
      exists pre, r, post. repeat split; assumption.
Defined.
